(** * India census dashboard ([app.py]): model and verified properties

    [app.py] is a Streamlit script.  Every user interaction re-executes it from
    top to bottom: the widgets of the sidebar return the user's current
    choices, the census table is filtered by two thresholds, and, once the
    "Plot Graph" button is pressed, three tabs are filled (map, charts,
    summary) and a download button is offered.

    The development follows the script:
    - [pandas]: the table and the data-frame operations the script calls;
    - [st]: the elements a run writes to the page, and the exceptions;
    - the script monad: the page, the binding of [state_df], the cache;
    - the script itself, section by section, under the names it uses;
    - the properties. *)

From Stdlib Require Import List String Ascii Bool Arith ZArith QArith Lia.
From Stdlib Require Import Permutation Sorting.Sorted.
From Stdlib Require Import Reals Qreals Lra.
From Stdlib Require Lqa.
Import ListNotations.

Local Open Scope string_scope.
Local Open Scope Q_scope.

(** ** The table *)

(** The numeric columns of [india.csv] that the script names: the two
    coordinates of the map and the seventeen columns of [primary_columns]. *)
Inductive NumCol : Type :=
| Latitude | Longitude
| Population | Male | Female | Sex_Ratio | Literate | Male_Literate
| Female_Literate | Literacy_Rate | Female_Literacy_Rate | SC | ST
| SC_Proportion | ST_Proportion | Total_Power_Parity
| Power_Parity_Above_Rs_545000 | Housholds_with_Electric_Lighting
| Having_latrine_facility_within_the_premises_Total_Households.

(** Any column: a numeric one, or one of the two identifiers. *)
Inductive Column : Type :=
| Num (c : NumCol)
| State
| District.

Coercion Num : NumCol >-> Column.

(** One row of the table: a district.  Numbers are rationals: a finite float
    or an integer is one, and [>=] on them is the order of the rationals. *)
Record Row : Type := mkRow {
  f_State : string;
  f_District : string;
  f_Latitude : Q;
  f_Longitude : Q;
  f_Population : Q;
  f_Male : Q;
  f_Female : Q;
  f_Sex_Ratio : Q;
  f_Literate : Q;
  f_Male_Literate : Q;
  f_Female_Literate : Q;
  f_Literacy_Rate : Q;
  f_Female_Literacy_Rate : Q;
  f_SC : Q;
  f_ST : Q;
  f_SC_Proportion : Q;
  f_ST_Proportion : Q;
  f_Total_Power_Parity : Q;
  f_Power_Parity_Above_Rs_545000 : Q;
  f_Housholds_with_Electric_Lighting : Q;
  f_Having_latrine_facility_within_the_premises_Total_Households : Q
}.

(** [row[c]] for a numeric column. *)
Definition get (c : NumCol) (r : Row) : Q :=
  match c with
  | Latitude => f_Latitude r
  | Longitude => f_Longitude r
  | Population => f_Population r
  | Male => f_Male r
  | Female => f_Female r
  | Sex_Ratio => f_Sex_Ratio r
  | Literate => f_Literate r
  | Male_Literate => f_Male_Literate r
  | Female_Literate => f_Female_Literate r
  | Literacy_Rate => f_Literacy_Rate r
  | Female_Literacy_Rate => f_Female_Literacy_Rate r
  | SC => f_SC r
  | ST => f_ST r
  | SC_Proportion => f_SC_Proportion r
  | ST_Proportion => f_ST_Proportion r
  | Total_Power_Parity => f_Total_Power_Parity r
  | Power_Parity_Above_Rs_545000 => f_Power_Parity_Above_Rs_545000 r
  | Housholds_with_Electric_Lighting => f_Housholds_with_Electric_Lighting r
  | Having_latrine_facility_within_the_premises_Total_Households =>
      f_Having_latrine_facility_within_the_premises_Total_Households r
  end.

(** The label of a column, as the script and the file's header spell it. *)
Definition num_name (c : NumCol) : string :=
  match c with
  | Latitude => "Latitude"
  | Longitude => "Longitude"
  | Population => "Population"
  | Male => "Male"
  | Female => "Female"
  | Sex_Ratio => "Sex_Ratio"
  | Literate => "Literate"
  | Male_Literate => "Male_Literate"
  | Female_Literate => "Female_Literate"
  | Literacy_Rate => "Literacy_Rate"
  | Female_Literacy_Rate => "Female_Literacy_Rate"
  | SC => "SC"
  | ST => "ST"
  | SC_Proportion => "SC_Proportion"
  | ST_Proportion => "ST_Proportion"
  | Total_Power_Parity => "Total_Power_Parity"
  | Power_Parity_Above_Rs_545000 => "Power_Parity_Above_Rs_545000"
  | Housholds_with_Electric_Lighting => "Housholds_with_Electric_Lighting"
  | Having_latrine_facility_within_the_premises_Total_Households =>
      "Having_latrine_facility_within_the_premises_Total_Households"
  end.

Definition column_name (c : Column) : string :=
  match c with
  | Num n => num_name n
  | State => "State"
  | District => "District"
  end.

(** A data frame: the rows in table order.  The columns are fixed by [Row]. *)
Definition DataFrame : Type := list Row.

(** ** The data-frame operations the script calls *)

Module pandas.

(** [df.empty]: no row (the frame always has its columns). *)
Definition empty (df : DataFrame) : bool :=
  match df with
  | [] => true
  | _ :: _ => false
  end.

(** [df[mask]] where [mask] is computed row by row: the rows whose mask is
    [True], in table order. *)
Definition loc (mask : Row -> bool) (df : DataFrame) : DataFrame :=
  filter mask df.

(** [df[c] >= x], one row's entry of the mask. *)
Definition ge (c : NumCol) (x : Q) (r : Row) : bool := Qle_bool x (get c r).

(** [df['State'] == s], one row's entry of the mask. *)
Definition state_eq (s : string) (r : Row) : bool := String.eqb (f_State r) s.

(** [df[c].sum()]. *)
Definition sum (c : NumCol) (df : DataFrame) : Q :=
  fold_right (fun r acc => get c r + acc) 0 df.

(** [df[c].mean()] of a frame with at least one row. *)
Definition mean (c : NumCol) (df : DataFrame) : Q :=
  sum c df / inject_Z (Z.of_nat (List.length df)).

(** [Series.unique()]: the distinct values in order of first appearance. *)
Fixpoint unique (l : list string) : list string :=
  match l with
  | [] => []
  | x :: l' => x :: filter (fun y => negb (String.eqb y x)) (unique l')
  end.

(** [df.sort_values(c, ascending=False)] with ties in table order: each row
    is put in front of the first row that is not larger than it. *)
Fixpoint insert_desc (c : NumCol) (r : Row) (l : DataFrame) : DataFrame :=
  match l with
  | [] => [r]
  | y :: l' =>
      if Qle_bool (get c y) (get c r) then r :: y :: l'
      else y :: insert_desc c r l'
  end.

Definition sort_values_desc (c : NumCol) (df : DataFrame) : DataFrame :=
  fold_right (insert_desc c) [] df.

(** [df.nlargest(n, c)], with the default [keep='first']: the first [n] rows
    in descending order of [c], the first occurrences first among equal
    values. *)
Definition nlargest (n : nat) (c : NumCol) (df : DataFrame) : DataFrame :=
  firstn n (sort_values_desc c df).

(** [df[['District', c]]]: the frame of these two columns. *)
Definition district_and (c : NumCol) (df : DataFrame) : list (string * Q) :=
  map (fun r => (f_District r, get c r)) df.

(** *** Correlation

    [df.corr()] is Pearson's coefficient of every pair of columns, computed
    over the reals here.  An entry is [None] (NaN) where pandas writes NaN:
    fewer observations than [min_periods = 1], or a zero divisor. *)

Definition values (c : NumCol) (df : DataFrame) : list R :=
  map (fun r => Q2R (get c r)) df.

Definition Rsum (l : list R) : R := fold_right Rplus 0%R l.

Definition Rmean (l : list R) : R := (Rsum l / INR (List.length l))%R.

(** Sum of the products of the deviations from [mx] and [my]. *)
Definition sdev (mx my : R) (xs ys : list R) : R :=
  Rsum (map (fun p => ((fst p - mx) * (snd p - my))%R) (combine xs ys)).

Definition ssqdm (xs : list R) : R := sdev (Rmean xs) (Rmean xs) xs xs.

Definition covxy (xs ys : list R) : R := sdev (Rmean xs) (Rmean ys) xs ys.

Definition pearson (xs ys : list R) : option R :=
  if (List.length xs <? 1)%nat then None
  else
    let divisor := sqrt (ssqdm xs * ssqdm ys) in
    if Req_dec_T divisor 0%R then None
    else Some (covxy xs ys / divisor)%R.

(** The matrix, one row and one column per column of [cols]. *)
Definition corr (cols : list NumCol) (df : DataFrame)
  : list (list (option R)) :=
  map (fun a => map (fun b => pearson (values a df) (values b df)) cols) cols.

(** *** Serialisation

    [df.to_csv(index=False)] writes the header and then one line per row.
    A file is kept as its rows of cells; how a number is printed is left
    to the cell.  The script does not show the column order of the file:
    the identifiers and the coordinates come first here. *)

Inductive Cell : Type :=
| label (s : string)
| number (q : Q).

Definition columns : list Column :=
  [ State; District; Num Latitude; Num Longitude; Num Population; Num Male;
    Num Female; Num Sex_Ratio; Num Literate; Num Male_Literate;
    Num Female_Literate; Num Literacy_Rate; Num Female_Literacy_Rate;
    Num SC; Num ST; Num SC_Proportion; Num ST_Proportion;
    Num Total_Power_Parity; Num Power_Parity_Above_Rs_545000;
    Num Housholds_with_Electric_Lighting;
    Num Having_latrine_facility_within_the_premises_Total_Households ].

Definition cell (r : Row) (c : Column) : Cell :=
  match c with
  | Num n => number (get n r)
  | State => label (f_State r)
  | District => label (f_District r)
  end.

Definition header : list Cell := map (fun c => label (column_name c)) columns.

Definition record (r : Row) : list Cell := map (cell r) columns.

Definition to_csv (df : DataFrame) : list (list Cell) :=
  header :: map record df.

(** [df.select_dtypes(include=[np.number]).columns]. *)
Definition number_columns : list NumCol :=
  flat_map (fun c => match c with Num n => [n] | _ => [] end) columns.

End pandas.

(** ** The page *)

Module st.

(** Where an element is written: the side bar, the page itself, or one of
    [tab1, tab2, tab3 = st.tabs(["Map", "Charts", "Summary"])]. *)
Inductive Container : Type := sidebar | main | tab1 | tab2 | tab3.

(** The figures of [plotly.express] and [plotly.figure_factory], with the
    arguments the script passes.  The annotation text of the heat map is
    [z] rounded to two decimals and is not kept apart. *)
Inductive Figure : Type :=
| scatter_mapbox (data : DataFrame) (color : Column) (size : NumCol)
    (zoom : Z) (title : string)
| bar (data : DataFrame) (x : Column) (y : NumCol) (title : string)
    (color : Column)
| pie (data : DataFrame) (names : Column) (values : NumCol) (title : string)
| box (data : DataFrame) (x : Column) (y : NumCol) (title : string)
    (color : Column)
| annotated_heatmap (z : list (list (option R))) (x y : list string).

(** The value of a metric card, with the format the script prints it in. *)
Inductive Value : Type :=
| thousands (q : Q)        (* f"{q:,}" *)
| percent (q : Q)          (* f"{q:.2f}%" *)
| count (n : nat).

Inductive Element : Type :=
| error (body : string)
| warning (body : string)
| title (body : string)
| markdown (body : string)
| text (body : string)
| subheader (body : string)
| expander (title body : string)
| plotly_chart (figure : Figure)
| metric (name : string) (value : Value)
| table (data : list (string * Q))
| write (data : DataFrame)
| download_button (name : string) (data : list (list pandas.Cell))
    (file_name mime : string).

(** What ends a run before the last line of the script. *)
Inductive Exception : Type :=
| NameError (name : string)
| ValueError (message : string)
| RerunException           (* st.experimental_rerun() *)
| StopException.           (* st.stop() *)

Definition is_warning (e : Element) : bool :=
  match e with warning _ => true | _ => false end.

Definition is_table (e : Element) : bool :=
  match e with table _ => true | _ => false end.

Definition is_download (e : Element) : bool :=
  match e with download_button _ _ _ _ => true | _ => false end.

Definition is_metric (e : Element) : bool :=
  match e with metric _ _ => true | _ => false end.

(** A map or a chart, the heat map apart. *)
Definition is_chart (e : Element) : bool :=
  match e with
  | plotly_chart (bar _ _ _ _ _) => true
  | plotly_chart (pie _ _ _ _) => true
  | plotly_chart (box _ _ _ _ _) => true
  | _ => false
  end.

Definition is_figure (e : Element) : bool :=
  match e with plotly_chart _ => true | _ => false end.

End st.

(** ** The script monad

    A run of the script appends elements to the page, binds the global
    [state_df] on some paths only, reads the store of [st.cache_data], and
    ends early when an exception is raised.  What was written before an
    exception stays on the page. *)

Record Run : Type := mkRun {
  page : list (st.Container * st.Element);
  state_df : option DataFrame;
  cache : option DataFrame
}.

Definition Script (A : Type) : Type := Run -> (st.Exception + A) * Run.

Definition ret {A : Type} (a : A) : Script A := fun s => (inr a, s).

Definition bind {A B : Type} (m : Script A) (k : A -> Script B) : Script B :=
  fun s =>
    match m s with
    | (inr a, s') => k a s'
    | (inl e, s') => (inl e, s')
    end.

Definition raise {A : Type} (e : st.Exception) : Script A :=
  fun s => (inl e, s).

Declare Scope script_scope.
Delimit Scope script_scope with script.
Notation "x <- m ;; k" := (bind m (fun x => k))
  (at level 61, m at next level, right associativity) : script_scope.
Notation "m ;; k" := (bind m (fun _ => k))
  (at level 61, right associativity) : script_scope.
Local Open Scope script_scope.

(** [with c: st.<element>(...)]. *)
Definition emit (c : st.Container) (e : st.Element) : Script unit :=
  fun s => (inr tt, mkRun (page s ++ [(c, e)]) (state_df s) (cache s)).

(** [state_df = v]. *)
Definition assign_state_df (v : DataFrame) : Script unit :=
  fun s => (inr tt, mkRun (page s) (Some v) (cache s)).

(** An occurrence of the name [state_df] in an expression. *)
Definition name_state_df : Script DataFrame :=
  fun s =>
    match state_df s with
    | Some v => (inr v, s)
    | None => (inl (st.NameError "state_df"), s)
    end.

(** A run starts on an empty page, with no binding of [state_df]. *)
Definition fresh (c : option DataFrame) : Run := mkRun [] None c.

(** The elements of one container, in the order they were written. *)
Definition within (c : st.Container) (p : list (st.Container * st.Element))
  : list st.Element :=
  map snd
    (filter (fun ce => match fst ce, c with
                       | st.sidebar, st.sidebar | st.main, st.main
                       | st.tab1, st.tab1 | st.tab2, st.tab2
                       | st.tab3, st.tab3 => true
                       | _, _ => false
                       end) p).

(** ** The script *)

(** What the widgets of the sidebar return in one run.  A select box returns
    one of its options, a slider a value of its range, a button [true] in the
    run its click starts. *)
Inductive ChartType : Type := Bar | Pie | Box.

Record Widgets : Type := mkWidgets {
  selected_state : string;
  primary : NumCol;
  secondary : Column;
  min_population : Z;
  min_literacy : Q;
  chart_type : ChartType;
  plot : bool;
  reset : bool;
  show_raw_data : bool
}.

(** [india.csv] as [pd.read_csv] finds it. *)
Inductive File : Type :=
| missing
| no_data
| csv (df : DataFrame).

(** [load_data], under [@st.cache_data]: the file is read when the store is
    empty, and a table that was read is kept. *)
Definition load_data (f : File) : Script DataFrame :=
  fun s =>
    match cache s with
    | Some df => (inr df, s)
    | None =>
        match f with
        | csv df => (inr df, mkRun (page s) (state_df s) (Some df))
        | missing =>
            (emit st.main (st.error
               "Error: 'india.csv' not found. Please ensure the file exists in the correct directory.") ;;
             raise st.StopException) s
        | no_data =>
            (emit st.main (st.error
               "Error: 'india.csv' is empty. Please provide a valid CSV file.") ;;
             raise st.StopException) s
        end
    end.

Definition list_of_states (df : DataFrame) : list string :=
  "Overall India" :: pandas.unique (map f_State df).

Definition primary_columns : list NumCol :=
  [ Population; Male; Female; Sex_Ratio; Literate; Male_Literate;
    Female_Literate; Literacy_Rate; Female_Literacy_Rate; SC; ST;
    SC_Proportion; ST_Proportion; Total_Power_Parity;
    Power_Parity_Above_Rs_545000; Housholds_with_Electric_Lighting;
    Having_latrine_facility_within_the_premises_Total_Households ].

Definition secondary_columns : list Column :=
  map Num primary_columns ++ [State; District].

Definition about_this_project : string :=
  "
    This project visualizes India's 2011 Census data. Select a state, primary (size), and secondary (color) parameters to explore districts on a map.
    - **Data Source**: Census 2011
    - **Primary Parameter**: Controls bubble size (numerical, e.g., Population)
    - **Secondary Parameter**: Controls bubble color (numerical or categorical, e.g., Literacy Rate, State)
    - **Filters**: Use sliders to filter districts by population or literacy rate.
    - **Tabs**: Explore map, charts (Bar, Pie, Box), and summary statistics with correlation heatmap.
    ".

(** Line 53, [int(df['Population'].max())]: the upper end of the population
    slider.  The maximum of an empty column is NaN, which [int] refuses;
    [int] drops the fraction of any other value. *)
Definition int (q : Q) : Z := Z.quot (Qnum q) (Zpos (Qden q)).

Definition Qmax (x y : Q) : Q := if Qle_bool x y then y else x.

Definition population_max (df : DataFrame) : option Q :=
  match df with
  | [] => None
  | r :: df' =>
      Some (fold_left (fun m r' => Qmax m (get Population r')) df'
              (get Population r))
  end.

Definition max_population (df : DataFrame) : Script Z :=
  match population_max df with
  | None => raise (st.ValueError "cannot convert float NaN to integer")
  | Some m => ret (int m)
  end.

(** Lines 84-85: the two thresholds, one after the other. *)
Definition filtered_df (df : DataFrame) (w : Widgets) : DataFrame :=
  let filtered_df :=
    pandas.loc (pandas.ge Population (inject_Z (min_population w))) df in
  pandas.loc (pandas.ge Literacy_Rate (min_literacy w)) filtered_df.

(** Lines 98-105: the frame of the selected state. *)
Definition restrict (w : Widgets) (filtered_df : DataFrame) : DataFrame :=
  if String.eqb (selected_state w) "Overall India" then filtered_df
  else pandas.loc (pandas.state_eq (selected_state w)) filtered_df.

Definition zoom (w : Widgets) : Z :=
  if String.eqb (selected_state w) "Overall India" then 3%Z else 6%Z.

Definition title (w : Widgets) : string :=
  if String.eqb (selected_state w) "Overall India" then "Overall India"
  else selected_state w.

(** Lines 96-120, [with tab1].  The spinner shown while the map is built
    leaves nothing on the page. *)
Definition map_tab (w : Widgets) (filtered_df : DataFrame) : Script unit :=
  assign_state_df (restrict w filtered_df) ;;
  state_df <- name_state_df ;;
  if pandas.empty state_df then
    emit st.tab1 (st.warning
      ("No data available for " ++ selected_state w ++ " with the current filters."))
  else
    emit st.tab1 (st.plotly_chart
      (st.scatter_mapbox state_df (secondary w) (primary w) (zoom w) (title w))).

(** Lines 122-154, [with tab2]. *)
Definition charts_tab (w : Widgets) : Script unit :=
  state_df <- name_state_df ;;
  if negb (String.eqb (selected_state w) "Overall India")
     && negb (pandas.empty state_df)
  then
    match chart_type w with
    | Bar =>
        emit st.tab2 (st.subheader
          (num_name (primary w) ++ " by District in " ++ selected_state w)) ;;
        emit st.tab2 (st.plotly_chart
          (st.bar state_df District (primary w)
             (num_name (primary w) ++ " in " ++ selected_state w)
             (secondary w)))
    | Pie =>
        emit st.tab2 (st.subheader
          (num_name (primary w) ++ " Distribution in " ++ selected_state w)) ;;
        emit st.tab2 (st.plotly_chart
          (st.pie state_df District (primary w)
             (num_name (primary w) ++ " Distribution in " ++ selected_state w)))
    | Box =>
        emit st.tab2 (st.subheader
          (num_name (primary w) ++ " Distribution in " ++ selected_state w)) ;;
        emit st.tab2 (st.plotly_chart
          (st.box state_df State (primary w)
             (num_name (primary w) ++ " Distribution in " ++ selected_state w)
             (secondary w)))
    end
  else
    emit st.tab2 (st.warning
      "Charts are available only for specific states, not 'Overall India'.").

(** [short_names.get(col, col)]. *)
Definition short_names (col : NumCol) : string :=
  match col with
  | Population => "Pop"
  | Male => "M"
  | Female => "F"
  | Sex_Ratio => "SexRatio"
  | Literate => "Lit"
  | Male_Literate => "MLit"
  | Female_Literate => "FLit"
  | Literacy_Rate => "LitRate"
  | Female_Literacy_Rate => "FLitRate"
  | SC => "SC"
  | ST => "ST"
  | SC_Proportion => "SCProp"
  | ST_Proportion => "STProp"
  | Total_Power_Parity => "PowerParity"
  | Power_Parity_Above_Rs_545000 => "HighParity"
  | Housholds_with_Electric_Lighting => "ElecLight"
  | Having_latrine_facility_within_the_premises_Total_Households => "Latrine"
  | col => num_name col
  end.

Definition numerical_cols : list NumCol := pandas.number_columns.

(** Line 182. *)
Definition corr_df (state_df : DataFrame) : list (list (option R)) :=
  pandas.corr numerical_cols state_df.

(** Line 221. *)
Definition top_districts (primary : NumCol) (state_df : DataFrame)
  : list (string * Q) :=
  pandas.district_and primary (pandas.nlargest 5 primary state_df).

(** Lines 156-229, [with tab3]. *)
Definition summary_tab (w : Widgets) (filtered_df : DataFrame) : Script unit :=
  emit st.tab3 (st.subheader "Correlation Heatmap (Numerical Columns)") ;;
  state_df <- name_state_df ;;
  (if (1 <? List.length numerical_cols)%nat then
     let short_labels := map short_names numerical_cols in
     emit st.tab3 (st.plotly_chart
       (st.annotated_heatmap (corr_df state_df) short_labels short_labels))
   else
     emit st.tab3 (st.warning
       "Not enough numerical columns for correlation heatmap.")) ;;
  state_df <- name_state_df ;;
  if negb (String.eqb (selected_state w) "Overall India")
     && negb (pandas.empty state_df)
  then
    emit st.tab3 (st.subheader ("Summary for " ++ selected_state w)) ;;
    emit st.tab3 (st.metric "Total Population"
      (st.thousands (pandas.sum Population state_df))) ;;
    emit st.tab3 (st.metric "Average Literacy Rate"
      (st.percent (pandas.mean Literacy_Rate state_df))) ;;
    emit st.tab3 (st.metric "Total Districts"
      (st.count (List.length state_df))) ;;
    emit st.tab3 (st.subheader
      ("Top 5 Districts by " ++ num_name (primary w))) ;;
    emit st.tab3 (st.table (top_districts (primary w) state_df))
  else
    emit st.tab3 (st.subheader "Summary for Overall India") ;;
    emit st.tab3 (st.metric "Total Population"
      (st.thousands (pandas.sum Population filtered_df))) ;;
    emit st.tab3 (st.metric "Average Literacy Rate"
      (st.percent (pandas.mean Literacy_Rate filtered_df))) ;;
    emit st.tab3 (st.metric "Total Districts"
      (st.count (List.length filtered_df))).

(** Lines 231-238. *)
Definition download (w : Widgets) : Script unit :=
  state_df <- name_state_df ;;
  if negb (pandas.empty state_df) then
    emit st.main (st.download_button "Download Filtered Data"
      (pandas.to_csv state_df)
      (selected_state w ++ "_filtered_data.csv") "text/csv")
  else ret tt.

(** Lines 91-238. *)
Definition plotting (w : Widgets) (filtered_df : DataFrame) : Script unit :=
  if plot w then
    (if pandas.empty filtered_df then
       emit st.main (st.warning
         "No data matches the selected filters. Please adjust the filters.")
     else
       map_tab w filtered_df ;;
       charts_tab w ;;
       summary_tab w filtered_df) ;;
    download w
  else ret tt.

(** Lines 241-243. *)
Definition raw_data (w : Widgets) (filtered_df : DataFrame) : Script unit :=
  if show_raw_data w then
    emit st.main (st.subheader "Raw Data") ;;
    emit st.main (st.write (restrict w filtered_df))
  else ret tt.

(** The whole of [app.py]. *)
Definition app_py (f : File) (w : Widgets) : Script unit :=
  df <- load_data f ;;
  emit st.sidebar (st.title "India's Data Visualization") ;;
  emit st.sidebar (st.markdown
    "**Help**: Select a numerical column (e.g., Population) for size and any column for color.") ;;
  emit st.sidebar (st.subheader "Filters") ;;
  _ <- max_population df ;;
  (if reset w then raise st.RerunException else ret tt) ;;
  emit st.main (st.text
    "**Note:** The data is from Census 2011 and has not been updated since then.") ;;
  emit st.main (st.text "Size represents the primary parameter.") ;;
  emit st.main (st.text "Color represents the secondary parameter.") ;;
  emit st.main (st.expander "About this Project" about_this_project) ;;
  let filtered_df := filtered_df df w in
  plotting w filtered_df ;;
  raw_data w filtered_df.

(** ** The session

    Streamlit keeps the values of the widgets and the store of
    [st.cache_data] from one run to the next.  A run that
    [st.experimental_rerun()] ends is followed at once by another run: the
    widgets the first run reached keep their values, its buttons are back to
    [False], and the check box below line 64, which it did not reach, is
    back to its default. *)

Record Session : Type := mkSession {
  widgets : Widgets;
  store : option DataFrame
}.

Definition rerun_widgets (w : Widgets) : Widgets :=
  mkWidgets (selected_state w) (primary w) (secondary w) (min_population w)
    (min_literacy w) (chart_type w) false false false.

(** The choices of the user: state, size, colour, thresholds, chart. *)
Definition selection (w : Widgets)
  : string * NumCol * Column * Z * Q * ChartType :=
  (selected_state w, primary w, secondary w, min_population w, min_literacy w,
   chart_type w).

(** The first option of every select box, the third argument of every
    slider. *)
Definition default_selection : string * NumCol * Column * Z * Q * ChartType :=
  ("Overall India", Population, Num Population, 0%Z, 0, Bar).

(** The values the widgets can return on table [df]. *)
Definition possible (df : DataFrame) (w : Widgets) : Prop :=
  In (selected_state w) (list_of_states df) /\
  In (primary w) primary_columns /\
  In (secondary w) secondary_columns /\
  (exists m, population_max df = Some m /\
             (0 <= min_population w <= int m)%Z) /\
  0 <= min_literacy w /\ min_literacy w <= 100.

Definition script_run (f : File) (s : Session)
  : (st.Exception + unit) * Run :=
  app_py f (widgets s) (fresh (store s)).

(** One interaction: the run it starts and, after a rerun request, the run
    that follows, each with the widget values it was given. *)
Definition interaction (f : File) (s : Session)
  : list (Widgets * ((st.Exception + unit) * Run)) :=
  let r1 := script_run f s in
  match fst r1 with
  | inl st.RerunException =>
      let s2 := mkSession (rerun_widgets (widgets s)) (cache (snd r1)) in
      [(widgets s, r1); (widgets s2, script_run f s2)]
  | _ => [(widgets s, r1)]
  end.

(** A run of the script on a table that loads. *)
Definition run (df : DataFrame) (w : Widgets) : (st.Exception + unit) * Run :=
  app_py (csv df) w (fresh None).

(** ** Notions of the statements *)

(** In column [c], [a] is ranked before [b]: its value is not smaller. *)
Definition before (c : NumCol) (a b : Row) : Prop := get c b <= get c a.

(** The rows whose value in column [c] is [v], in the order of the frame. *)
Definition tied (c : NumCol) (v : Q) (df : DataFrame) : DataFrame :=
  filter (fun r => Qeq_bool (get c r) v) df.

(** The entry of row [i] and column [j] of a matrix; NaN outside of it. *)
Definition entry (m : list (list (option R))) (i j : nat) : option R :=
  nth j (nth i m []) None.

(** Column [c] takes two different values in the frame. *)
Definition varies (c : NumCol) (df : DataFrame) : Prop :=
  exists r1 r2, In r1 df /\ In r2 df /\ ~ get c r1 == get c r2.

(** The chart type a figure renders. *)
Definition chart_of (f : st.Figure) : option ChartType :=
  match f with
  | st.bar _ _ _ _ _ => Some Bar
  | st.pie _ _ _ _ => Some Pie
  | st.box _ _ _ _ _ => Some Box
  | _ => None
  end.

(** [s] occurs in [t]. *)
Definition contains (s t : string) : Prop :=
  exists pre post, t = pre ++ s ++ post.

(** The two notices of the plotting section that the statements name. *)
Definition no_match : st.Element :=
  st.warning "No data matches the selected filters. Please adjust the filters.".

Definition charts_need_state : st.Element :=
  st.warning
    "Charts are available only for specific states, not 'Overall India'.".

(** ** Sample data *)

Module sample.

(** A district with a name, a population and a literacy rate. *)
Definition district (state name : string) (population literacy_rate : Q)
  : Row :=
  mkRow state name 0 0 population 0 0 0 0 0 0 literacy_rate 0 0 0 0 0 0 0 0 0.

Definition goa : DataFrame :=
  [ district "Goa" "North Goa" 818008 (8957 # 100);
    district "Goa" "South Goa" 640537 (8760 # 100) ].

Definition table : DataFrame :=
  district "Kerala" "Kannur" 2523003 (9510 # 100)
  :: district "Bihar" "Patna" 5838465 (7068 # 100)
  :: goa.

(** Three districts of Goa, and one of another state. *)
Definition three_of_goa : DataFrame :=
  [ district "Goa" "North Goa" 818008 (8957 # 100);
    district "Bihar" "Patna" 5838465 (7068 # 100);
    district "Goa" "South Goa" 640537 (8760 # 100);
    district "Goa" "Panaji" 114759 (9000 # 100) ].

(** A state of a single district. *)
Definition chandigarh : DataFrame :=
  [ district "Chandigarh" "Chandigarh" 1055450 (8605 # 100) ].

(** Five districts of one state with populations 10, 50, 30, 50, 20. *)
Definition five : DataFrame :=
  [ district "X" "A" 10 50; district "X" "B" 50 50; district "X" "C" 30 50;
    district "X" "D" 50 50; district "X" "E" 20 50 ].

Definition choose (state : string) (pop : Z) (lit : Q) (p r : bool)
  : Widgets :=
  mkWidgets state Population (Num Literacy_Rate) pop lit Bar p r false.

End sample.

(** ** Notions of the further statements *)

(** A row passes both thresholds of [w]. *)
Definition passes (w : Widgets) (r : Row) : Prop :=
  inject_Z (min_population w) <= get Population r /\
  min_literacy w <= get Literacy_Rate r.

(** A row is of the selection of [w]: any row under "Overall India", the rows
    of the selected state otherwise. *)
Definition selected (w : Widgets) (r : Row) : Prop :=
  selected_state w = "Overall India" \/ f_State r = selected_state w.

(** The widgets of [w] with state [s] selected instead. *)
Definition select (s : string) (w : Widgets) : Widgets :=
  mkWidgets s (primary w) (secondary w) (min_population w) (min_literacy w)
    (chart_type w) (plot w) (reset w) (show_raw_data w).

(** The figures among the elements of a page. *)
Definition figures (p : list st.Element) : list st.Figure :=
  flat_map (fun e => match e with st.plotly_chart f => [f] | _ => [] end) p.

(** The frame a map or a chart is drawn from; the heat map takes a matrix. *)
Definition figure_data (f : st.Figure) : option DataFrame :=
  match f with
  | st.scatter_mapbox d _ _ _ _ => Some d
  | st.bar d _ _ _ _ => Some d
  | st.pie d _ _ _ => Some d
  | st.box d _ _ _ _ => Some d
  | st.annotated_heatmap _ _ _ => None
  end.

(** The frames that [st.write] put on a page. *)
Definition written (p : list st.Element) : list DataFrame :=
  flat_map (fun e => match e with st.write d => [d] | _ => [] end) p.

(** All the elements of the page of a run, in order. *)
Definition elements (r : (st.Exception + unit) * Run) : list st.Element :=
  map snd (page (snd r)).

(** ** Properties of the filter *)

Section Masks.

Variable mask : Row -> bool.

Lemma loc_In (df : DataFrame) (r : Row) :
  In r (pandas.loc mask df) <-> In r df /\ mask r = true.
Proof. unfold pandas.loc. apply filter_In. Qed.

Lemma loc_all (df : DataFrame) :
  (forall r, In r df -> mask r = true) -> pandas.loc mask df = df.
Proof.
  unfold pandas.loc. induction df as [|r df IH]; intros Hall; simpl.
  - reflexivity.
  - rewrite (Hall r (or_introl eq_refl)). f_equal.
    apply IH. intros r' Hr'. apply Hall. now right.
Qed.

End Masks.

Lemma ge_true (c : NumCol) (x : Q) (r : Row) :
  pandas.ge c x r = true <-> x <= get c r.
Proof. unfold pandas.ge. apply Qle_bool_iff. Qed.

Lemma state_eq_true (s : string) (r : Row) :
  pandas.state_eq s r = true <-> f_State r = s.
Proof. unfold pandas.state_eq. apply String.eqb_eq. Qed.

(** The rows that the filter keeps are the rows of the table that meet both
    thresholds. *)
Lemma filtered_df_In (df : DataFrame) (w : Widgets) (r : Row) :
  In r (filtered_df df w) <->
  In r df /\
  inject_Z (min_population w) <= f_Population r /\
  min_literacy w <= f_Literacy_Rate r.
Proof.
  unfold filtered_df. rewrite !loc_In, !ge_true. simpl. tauto.
Qed.

(** A frame whose rows all meet the thresholds passes the filter whole. *)
Lemma filtered_df_all (df : DataFrame) (w : Widgets) :
  (forall r, In r df ->
     inject_Z (min_population w) <= get Population r /\
     min_literacy w <= get Literacy_Rate r) ->
  filtered_df df w = df.
Proof.
  intros Hall. unfold filtered_df.
  rewrite (loc_all (pandas.ge Population (inject_Z (min_population w)))).
  - apply loc_all. intros r Hr. apply ge_true. now apply Hall.
  - intros r Hr. apply ge_true. now apply Hall.
Qed.

Lemma restrict_incl (w : Widgets) (filtered_df : DataFrame) :
  incl (restrict w filtered_df) filtered_df.
Proof.
  unfold restrict. destruct (String.eqb _ _).
  - apply incl_refl.
  - intros r Hr. now apply loc_In in Hr.
Qed.

Lemma restrict_again (w w' : Widgets) (filtered_df : DataFrame) :
  selected_state w' = selected_state w ->
  restrict w' (restrict w filtered_df) = restrict w filtered_df.
Proof.
  intros Hs. unfold restrict. rewrite Hs.
  destruct (String.eqb (selected_state w) "Overall India"); [reflexivity|].
  apply loc_all. intros r Hr. now apply loc_In in Hr.
Qed.

(** C1.  Whatever the table and the thresholds (the valid ones, a population
    floor of at least 0 and a literacy floor between 0 and 100, among them),
    the filtered frame holds rows of the table only, and each of its rows has
    a population of at least [min_population] and a literacy rate of at least
    [min_literacy].  The same holds of the frame of the selected state. *)
Theorem filtered_df_subset_and_thresholds (df : DataFrame) (w : Widgets) :
  (incl (filtered_df df w) df /\
   Forall (fun r =>
             inject_Z (min_population w) <= get Population r /\
             min_literacy w <= get Literacy_Rate r)
          (filtered_df df w)) /\
  (incl (restrict w (filtered_df df w)) df /\
   Forall (fun r =>
             inject_Z (min_population w) <= get Population r /\
             min_literacy w <= get Literacy_Rate r)
          (restrict w (filtered_df df w))).
Proof.
  assert (Hin : forall r, In r (filtered_df df w) ->
            In r df /\
            inject_Z (min_population w) <= get Population r /\
            min_literacy w <= get Literacy_Rate r).
  { intros r Hr. now apply filtered_df_In in Hr. }
  pose proof (restrict_incl w (filtered_df df w)) as Hsub.
  repeat split.
  - intros r Hr. now apply Hin.
  - apply Forall_forall. intros r Hr. now apply Hin.
  - intros r Hr. now apply Hin, Hsub.
  - apply Forall_forall. intros r Hr. now apply Hin, Hsub.
Qed.

(** C8.  Filtering a frame that the filter produced, with the same
    thresholds or with lower ones, gives the frame back; so does filtering
    the frame of the selected state and selecting the same state again. *)
Theorem filtered_df_idempotent (df : DataFrame) (w w' : Widgets) :
  (min_population w' <= min_population w)%Z ->
  min_literacy w' <= min_literacy w ->
  filtered_df (filtered_df df w) w' = filtered_df df w /\
  (selected_state w' = selected_state w ->
   restrict w' (filtered_df (restrict w (filtered_df df w)) w')
   = restrict w (filtered_df df w)).
Proof.
  intros Hpop Hlit.
  assert (Hkeep : forall r, In r (filtered_df df w) ->
            inject_Z (min_population w') <= get Population r /\
            min_literacy w' <= get Literacy_Rate r).
  { intros r Hr. apply filtered_df_In in Hr. destruct Hr as (_ & Hp & Hl).
    simpl. split.
    - apply Qle_trans with (inject_Z (min_population w)); [|assumption].
      rewrite <- Zle_Qle. exact Hpop.
    - now apply Qle_trans with (min_literacy w). }
  split.
  - now apply filtered_df_all.
  - intros Hs. rewrite filtered_df_all.
    + now apply restrict_again.
    + intros r Hr. now apply Hkeep, (restrict_incl w).
Qed.

Lemma filtered_df_idempotent_witness :
  (0 <= 700000)%Z /\ 0 <= 88 /\
  filtered_df
    (filtered_df sample.table (sample.choose "Goa" 700000 88 true false))
    (sample.choose "Goa" 0 0 true false)
  = filtered_df sample.table (sample.choose "Goa" 700000 88 true false) /\
  restrict (sample.choose "Goa" 0 0 true false)
    (filtered_df
       (restrict (sample.choose "Goa" 700000 88 true false)
          (filtered_df sample.table (sample.choose "Goa" 700000 88 true false)))
       (sample.choose "Goa" 0 0 true false))
  = restrict (sample.choose "Goa" 700000 88 true false)
      (filtered_df sample.table (sample.choose "Goa" 700000 88 true false)).
Proof.
  split; [lia|]. split; [discriminate|].
  assert (H := filtered_df_idempotent sample.table
                 (sample.choose "Goa" 700000 88 true false)
                 (sample.choose "Goa" 0 0 true false)).
  destruct H as [H1 H2]; [simpl; lia | simpl; discriminate |].
  split; [exact H1 | apply H2; reflexivity].
Defined.
(** ** The frame of the selected state *)

(** C3.  With a state selected, every row of [state_df] is a row of that
    state; with "Overall India" selected, [state_df] is the filtered frame
    itself. *)
Theorem restrict_region (w : Widgets) (filtered_df : DataFrame) :
  (selected_state w <> "Overall India" ->
   Forall (fun r => f_State r = selected_state w) (restrict w filtered_df)) /\
  (selected_state w = "Overall India" ->
   restrict w filtered_df = filtered_df).
Proof.
  unfold restrict. split; intros H.
  - destruct (String.eqb_spec (selected_state w) "Overall India") as [E|_];
      [contradiction|].
    apply Forall_forall. intros r Hr. apply loc_In in Hr.
    now apply state_eq_true.
  - rewrite H. reflexivity.
Qed.

Lemma restrict_region_witness :
  Forall (fun r => f_State r = "Goa")
    (restrict (sample.choose "Goa" 0 0 true false) sample.table) /\
  restrict (sample.choose "Overall India" 0 0 true false) sample.table
  = sample.table.
Proof.
  split.
  - apply (proj1 (restrict_region (sample.choose "Goa" 0 0 true false)
                    sample.table)).
    simpl. discriminate.
  - apply (proj2 (restrict_region (sample.choose "Overall India" 0 0 true false)
                    sample.table)).
    reflexivity.
Defined.

(** ** The five largest districts *)

Section Ranking.

Variable c : NumCol.

Lemma insert_desc_perm (r : Row) (l : DataFrame) :
  Permutation (pandas.insert_desc c r l) (r :: l).
Proof.
  induction l as [|y l IH]; simpl.
  - reflexivity.
  - destruct (Qle_bool (get c y) (get c r)).
    + reflexivity.
    + rewrite IH. apply perm_swap.
Qed.

Lemma sort_values_desc_perm (df : DataFrame) :
  Permutation (pandas.sort_values_desc c df) df.
Proof.
  induction df as [|r df IH]; simpl.
  - constructor.
  - rewrite insert_desc_perm. now constructor.
Qed.

Lemma insert_desc_sorted (r : Row) (l : DataFrame) :
  StronglySorted (before c) l -> StronglySorted (before c) (pandas.insert_desc c r l).
Proof.
  induction 1 as [|y l Hl IH Hy]; simpl.
  - repeat constructor.
  - destruct (Qle_bool (get c y) (get c r)) eqn:E.
    + apply Qle_bool_iff in E.
      constructor; [now constructor|].
      constructor; [exact E|].
      apply Forall_forall. intros z Hz.
      rewrite Forall_forall in Hy. specialize (Hy z Hz).
      unfold before in *. now apply Qle_trans with (get c y).
    + constructor; [exact IH|].
      apply (Permutation_Forall (Permutation_sym (insert_desc_perm r l))).
      constructor; [|exact Hy].
      unfold before. apply Qlt_le_weak, Qnot_le_lt.
      intros H. apply Qle_bool_iff in H. congruence.
Qed.

Lemma sort_values_desc_sorted (df : DataFrame) :
  StronglySorted (before c) (pandas.sort_values_desc c df).
Proof.
  induction df as [|r df IH]; simpl.
  - constructor.
  - now apply insert_desc_sorted.
Qed.

Lemma insert_desc_tied (v : Q) (r : Row) (l : DataFrame) :
  tied c v (pandas.insert_desc c r l) = tied c v (r :: l).
Proof.
  induction l as [|y l IH]; simpl.
  - reflexivity.
  - destruct (Qle_bool (get c y) (get c r)) eqn:E; [reflexivity|].
    change (tied c v (y :: pandas.insert_desc c r l) = tied c v (r :: y :: l)).
    unfold tied in *. simpl in *. rewrite IH.
    destruct (Qeq_bool (get c y) v) eqn:Ey;
      destruct (Qeq_bool (get c r) v) eqn:Er; try reflexivity.
    apply Qeq_bool_iff in Ey, Er.
    assert (H : Qle_bool (get c y) (get c r) = true).
    { apply Qle_bool_iff. rewrite Ey, Er. apply Qle_refl. }
    congruence.
Qed.

Lemma sort_values_desc_tied (v : Q) (df : DataFrame) :
  tied c v (pandas.sort_values_desc c df) = tied c v df.
Proof.
  induction df as [|r df IH]; simpl.
  - reflexivity.
  - rewrite insert_desc_tied. unfold tied in *. simpl. now rewrite IH.
Qed.

End Ranking.

(** C4.  The table of the summary tab holds the first five rows (all of them
    when there are fewer) of a ranking of [state_df] that is a rearrangement
    of its rows, descending in [primary], and keeps rows of equal value in
    the order of the frame.  Values 10, 50, 30, 50, 20 give 50, 50, 30, 20, 10
    with the two rows of value 50 in their order. *)
Theorem top_districts_ranked :
  (forall (primary : NumCol) (state_df : DataFrame),
     exists ranked : DataFrame,
       Permutation ranked state_df /\
       StronglySorted (before primary) ranked /\
       (forall v, tied primary v ranked = tied primary v state_df) /\
       top_districts primary state_df
       = pandas.district_and primary (firstn 5 ranked) /\
       List.length (top_districts primary state_df)
       = Nat.min 5 (List.length state_df)) /\
  top_districts Population sample.five
  = [("B", 50); ("D", 50); ("C", 30); ("E", 20); ("A", 10)].
Proof.
  split; [|reflexivity].
  intros primary state_df.
  exists (pandas.sort_values_desc primary state_df).
  split; [apply sort_values_desc_perm|].
  split; [apply sort_values_desc_sorted|].
  split; [intros v; apply sort_values_desc_tied|].
  split; [reflexivity|].
  unfold top_districts, pandas.district_and, pandas.nlargest.
  rewrite length_map, length_firstn.
  now rewrite (Permutation_length (sort_values_desc_perm primary state_df)).
Qed.

(** ** The correlation matrix *)

Section Pearson.

Local Open Scope R_scope.

Lemma sdev_sym (mx my : R) (xs ys : list R) :
  pandas.sdev mx my xs ys = pandas.sdev my mx ys xs.
Proof.
  unfold pandas.sdev. revert ys.
  induction xs as [|x xs IH]; intros [|y ys]; simpl; try reflexivity.
  rewrite IH. ring.
Qed.

Lemma sdev_square_nonneg (m : R) (xs : list R) :
  0 <= pandas.sdev m m xs xs.
Proof.
  unfold pandas.sdev. induction xs as [|x xs IH]; simpl.
  - apply Rle_refl.
  - pose proof (Rle_0_sqr (x - m)) as H. unfold Rsqr in H. lra.
Qed.

Lemma sdev_square_zero (m : R) (xs : list R) :
  pandas.sdev m m xs xs = 0 <-> Forall (fun x => x = m) xs.
Proof.
  induction xs as [|x xs IH].
  - split; [constructor | reflexivity].
  - pose proof (sdev_square_nonneg m xs) as Hxs.
    pose proof (Rle_0_sqr (x - m)) as Hx. unfold Rsqr in Hx.
    unfold pandas.sdev in *. simpl in *. split.
    + intros H.
      assert (Hx0 : (x - m) * (x - m) = 0) by lra.
      constructor.
      * apply Rmult_integral in Hx0. lra.
      * apply IH. lra.
    + intros H. inversion H as [|? ? Hm Hrest]; subst.
      apply IH in Hrest. rewrite Hrest. ring.
Qed.

Lemma Rsum_const (v : R) (xs : list R) :
  Forall (fun x => x = v) xs -> pandas.Rsum xs = INR (List.length xs) * v.
Proof.
  induction 1 as [|x xs Hx _ IH].
  - simpl. ring.
  - change (pandas.Rsum (x :: xs)) with (x + pandas.Rsum xs).
    change (List.length (x :: xs)) with (S (List.length xs)).
    rewrite S_INR, IH, Hx. ring.
Qed.

Lemma Rmean_const (v : R) (xs : list R) :
  xs <> [] -> Forall (fun x => x = v) xs -> pandas.Rmean xs = v.
Proof.
  intros Hne Hall. unfold pandas.Rmean. rewrite (Rsum_const v xs Hall).
  assert (Hn : INR (List.length xs) <> 0).
  { apply not_0_INR. destruct xs; [congruence | discriminate]. }
  field. exact Hn.
Qed.

(** The entry of a column with itself: NaN when the squared deviations sum
    to zero, and 1 otherwise. *)
Lemma pearson_diag (xs : list R) :
  pandas.pearson xs xs =
  if (List.length xs <? 1)%nat then None
  else if Req_dec_T (pandas.ssqdm xs) 0 then None else Some 1.
Proof.
  unfold pandas.pearson. destruct (List.length xs <? 1)%nat; [reflexivity|].
  cbv zeta.
  rewrite (sqrt_square (pandas.ssqdm xs)) by apply sdev_square_nonneg.
  destruct (Req_dec_T (pandas.ssqdm xs) 0) as [E|E]; [reflexivity|].
  f_equal. change (pandas.covxy xs xs) with (pandas.ssqdm xs).
  field. exact E.
Qed.

Lemma pearson_sym (xs ys : list R) :
  List.length xs = List.length ys ->
  pandas.pearson xs ys = pandas.pearson ys xs.
Proof.
  intros Hlen. unfold pandas.pearson. rewrite Hlen.
  destruct (List.length ys <? 1)%nat; [reflexivity|].
  cbv zeta. rewrite (Rmult_comm (pandas.ssqdm ys)).
  unfold pandas.covxy. rewrite (sdev_sym (pandas.Rmean ys)).
  reflexivity.
Qed.

End Pearson.

Lemma values_length (c : NumCol) (df : DataFrame) :
  List.length (pandas.values c df) = List.length df.
Proof. apply length_map. Qed.

(** The squared deviations of a column sum to zero exactly when the column
    does not vary. *)
Lemma ssqdm_zero_iff (c : NumCol) (df : DataFrame) :
  pandas.ssqdm (pandas.values c df) = 0%R <-> ~ varies c df.
Proof.
  unfold pandas.ssqdm. rewrite sdev_square_zero, Forall_forall. split.
  - intros Hall (r1 & r2 & H1 & H2 & Hne). apply Hne, eqR_Qeq.
    rewrite (Hall (Q2R (get c r1))), (Hall (Q2R (get c r2))); [reflexivity| |];
      unfold pandas.values; apply in_map_iff; eauto.
  - intros Hconst.
    destruct df as [|r0 df]; [intros x []|].
    assert (Hall : Forall (fun x => x = Q2R (get c r0))
                     (pandas.values c (r0 :: df))).
    { apply Forall_forall. intros x Hx.
      apply in_map_iff in Hx. destruct Hx as (r & <- & Hr).
      apply Qeq_eqR.
      destruct (Qeq_dec (get c r) (get c r0)) as [E|E]; [exact E|].
      exfalso. apply Hconst. exists r, r0. repeat split; simpl; auto. }
    rewrite (Rmean_const (Q2R (get c r0))); [|discriminate|exact Hall].
    now apply Forall_forall.
Qed.

Lemma entry_corr (cols : list NumCol) (df : DataFrame) (i j : nat)
      (a b : NumCol) :
  nth_error cols i = Some a -> nth_error cols j = Some b ->
  entry (pandas.corr cols df) i j
  = pandas.pearson (pandas.values a df) (pandas.values b df).
Proof.
  intros Hi Hj. unfold entry, pandas.corr.
  erewrite (nth_error_nth _ i); [|rewrite nth_error_map, Hi; reflexivity].
  erewrite (nth_error_nth _ j); [|rewrite nth_error_map, Hj; reflexivity].
  reflexivity.
Qed.

Lemma entry_corr_outside (cols : list NumCol) (df : DataFrame) (i j : nat) :
  nth_error cols i = None \/ nth_error cols j = None ->
  entry (pandas.corr cols df) i j = None.
Proof.
  intros H. unfold entry, pandas.corr.
  destruct (nth_error cols i) as [a|] eqn:Hi.
  - destruct H as [H|H]; [discriminate|].
    erewrite (nth_error_nth _ i); [|rewrite nth_error_map, Hi; reflexivity].
    apply nth_overflow. rewrite length_map. now apply nth_error_None.
  - rewrite (nth_overflow _ _ (n := i)); [now destruct j|].
    rewrite length_map. now apply nth_error_None.
Qed.

Lemma entry_corr_diag (cols : list NumCol) (df : DataFrame) (i : nat)
      (c : NumCol) :
  nth_error cols i = Some c ->
  (varies c df -> entry (pandas.corr cols df) i i = Some 1%R) /\
  (~ varies c df -> entry (pandas.corr cols df) i i = None).
Proof.
  intros Hi. rewrite (entry_corr cols df i i c c Hi Hi), pearson_diag.
  destruct (Req_dec_T (pandas.ssqdm (pandas.values c df)) 0) as [E|E].
  - apply ssqdm_zero_iff in E. split; [contradiction|].
    now destruct (_ <? _)%nat.
  - split; [|intros Hn; apply ssqdm_zero_iff in Hn; contradiction].
    intros (r1 & _ & H1 & _). rewrite values_length.
    destruct df; [destruct H1 | reflexivity].
Qed.

(** C6, as the script has it.  The matrix is symmetric, undefined entries
    included.  The diagonal entry of a column is 1 when the column takes two
    different values in the frame, and NaN when it does not: a frame of one
    district, or a column that is constant over the frame. *)
Theorem corr_df_symmetric_diagonal (state_df : DataFrame) :
  (forall i j, entry (corr_df state_df) i j = entry (corr_df state_df) j i) /\
  (forall i c, nth_error numerical_cols i = Some c ->
     (varies c state_df -> entry (corr_df state_df) i i = Some 1%R) /\
     (~ varies c state_df -> entry (corr_df state_df) i i = None)).
Proof.
  unfold corr_df. split.
  - intros i j.
    destruct (nth_error numerical_cols i) as [a|] eqn:Hi;
      [destruct (nth_error numerical_cols j) as [b|] eqn:Hj|].
    + rewrite (entry_corr _ _ i j a b Hi Hj), (entry_corr _ _ j i b a Hj Hi).
      apply pearson_sym. now rewrite !values_length.
    + rewrite !entry_corr_outside; auto.
    + rewrite !entry_corr_outside; auto.
  - intros i c Hi. now apply entry_corr_diag.
Qed.

Lemma corr_df_symmetric_diagonal_witness :
  nth_error numerical_cols 2 = Some Population /\
  nth_error numerical_cols 0 = Some Latitude /\
  entry (corr_df sample.goa) 2 2 = Some 1%R /\
  entry (corr_df sample.goa) 0 0 = None.
Proof.
  split; [reflexivity|]. split; [reflexivity|]. split.
  - apply (proj2 (corr_df_symmetric_diagonal sample.goa) 2%nat Population);
      [reflexivity|].
    exists (sample.district "Goa" "North Goa" 818008 (8957 # 100)),
           (sample.district "Goa" "South Goa" 640537 (8760 # 100)).
    split; [now left|]. split; [right; now left|]. discriminate.
  - apply (proj2 (corr_df_symmetric_diagonal sample.goa) 0%nat Latitude);
      [reflexivity|].
    intros (r1 & r2 & H1 & H2 & Hne). apply Hne.
    destruct H1 as [<-|[<-|[]]]; destruct H2 as [<-|[<-|[]]]; reflexivity.
Defined.

(** C6 as the specification words it, with 1.0 on the whole diagonal, fails
    on a state of one district: the diagonal entry of [Population] is NaN
    there, not 1. *)
Lemma corr_df_diagonal_counterexample :
  nth_error numerical_cols 2 = Some Population /\
  entry (corr_df sample.chandigarh) 2 2 = None /\
  entry (corr_df sample.chandigarh) 2 2 <> Some 1%R.
Proof.
  split; [reflexivity|].
  assert (H : entry (corr_df sample.chandigarh) 2 2 = None).
  { apply (entry_corr_diag numerical_cols sample.chandigarh 2 Population);
      [reflexivity|].
    intros (r1 & r2 & H1 & H2 & Hne). apply Hne.
    destruct H1 as [<-|[]]; destruct H2 as [<-|[]]; reflexivity. }
  split; [exact H | rewrite H; discriminate].
Qed.

(** ** Runs of the script *)

(** Unfold the script down to the monad, then compute the page; the frames
    and the figures stay folded. *)
Ltac unfold_script :=
  unfold run, script_run, app_py, max_population, plotting, map_tab,
    charts_tab, summary_tab, download, raw_data, load_data, bind, ret, raise,
    emit, assign_state_df, name_state_df, fresh.

Ltac step :=
  cbn -[filtered_df restrict corr_df top_districts pandas.sum pandas.mean
        pandas.to_csv String.append about_this_project].

Ltac by_cases_on_raw_data w :=
  destruct (show_raw_data w); step; try reflexivity; try discriminate.

Lemma restrict_nil (w : Widgets) : restrict w [] = [].
Proof. unfold restrict. now destruct (String.eqb _ _). Qed.

Lemma filtered_df_nil (w : Widgets) : filtered_df [] w = [].
Proof. reflexivity. Qed.

(** Pressing "Plot Graph" when no row passes the thresholds: the notice is
    written, nothing is written in the tabs, no figure is drawn and no
    download is offered, and the run ends in a [NameError], since line 232
    reads [state_df], which only the other branch binds. *)
Lemma plot_on_empty_selection (df : DataFrame) (w : Widgets) :
  df <> [] -> reset w = false -> plot w = true -> filtered_df df w = [] ->
  fst (run df w) = inl (st.NameError "state_df") /\
  (exists p, within st.main (page (snd (run df w))) = (p ++ [no_match])%list) /\
  within st.tab1 (page (snd (run df w))) = [] /\
  within st.tab2 (page (snd (run df w))) = [] /\
  within st.tab3 (page (snd (run df w))) = [] /\
  existsb st.is_figure (map snd (page (snd (run df w)))) = false /\
  existsb st.is_download (map snd (page (snd (run df w)))) = false.
Proof.
  intros Hdf Hr Hp Hf. destruct df as [|d0 df]; [congruence|].
  unfold_script. step. rewrite Hr, Hp, Hf. step.
  repeat split. now eexists [_; _; _; _].
Qed.

(** C2, on a table of four districts with the literacy floor at 96: the
    widgets hold values they can take, no row passes, the notice is written,
    and the run then fails with a [NameError] instead of ending. *)
Theorem plot_on_empty_selection_raises_NameError :
  possible sample.table (sample.choose "Goa" 0 96 true false) /\
  filtered_df sample.table (sample.choose "Goa" 0 96 true false) = [] /\
  run sample.table (sample.choose "Goa" 0 96 true false)
  = (inl (st.NameError "state_df"),
     mkRun
       [ (st.sidebar, st.title "India's Data Visualization");
         (st.sidebar, st.markdown
            "**Help**: Select a numerical column (e.g., Population) for size and any column for color.");
         (st.sidebar, st.subheader "Filters");
         (st.main, st.text
            "**Note:** The data is from Census 2011 and has not been updated since then.");
         (st.main, st.text "Size represents the primary parameter.");
         (st.main, st.text "Color represents the secondary parameter.");
         (st.main, st.expander "About this Project" about_this_project);
         (st.main, no_match) ]
       None (Some sample.table)).
Proof.
  split; [|split; reflexivity].
  unfold possible. simpl. repeat split; auto 10; try discriminate.
  exists 5838465. split; [reflexivity|]. split; [lia | vm_compute; discriminate].
Qed.

(** C5.  In any run, a chart is written in the charts tab only with a state
    selected and a frame of that state that is not empty.  In a run that
    fills the tabs, the charts tab holds a heading and the chart of the
    chosen type in that case, and in every other case, "Overall India" with
    any chart type among them, only the notice that charts need a state. *)
Theorem charts_tab_chart_or_notice (df : DataFrame) (w : Widgets) :
  (existsb st.is_chart (within st.tab2 (page (snd (run df w)))) = true ->
   selected_state w <> "Overall India" /\
   restrict w (filtered_df df w) <> []) /\
  (reset w = false -> plot w = true -> filtered_df df w <> [] ->
   (selected_state w <> "Overall India" /\
    restrict w (filtered_df df w) <> [] ->
    exists heading figure,
      within st.tab2 (page (snd (run df w)))
      = [st.subheader heading; st.plotly_chart figure] /\
      chart_of figure = Some (chart_type w)) /\
   (selected_state w = "Overall India" \/
    restrict w (filtered_df df w) = [] ->
    within st.tab2 (page (snd (run df w))) = [charts_need_state])).
Proof.
  split.
  - destruct df as [|d0 df]; [discriminate|].
    unfold_script. step.
    destruct (reset w); [discriminate|].
    destruct (plot w); [|by_cases_on_raw_data w].
    step.
    destruct (filtered_df (d0 :: df) w) as [|r0 fdf]; [discriminate|].
    step.
    destruct (String.eqb_spec (selected_state w) "Overall India") as [Es|Es];
      step; destruct (restrict w (r0 :: fdf)) as [|r1 sdf];
      try (by_cases_on_raw_data w; fail).
    intros _. split; [exact Es | discriminate].
  - intros Hr Hp Hf.
    destruct df as [|d0 df]; [now rewrite filtered_df_nil in Hf|].
    unfold_script. step. rewrite Hr, Hp. step.
    destruct (filtered_df (d0 :: df) w) as [|r0 fdf]; [congruence|].
    step.
    destruct (String.eqb_spec (selected_state w) "Overall India") as [Es|Es];
      step; destruct (restrict w (r0 :: fdf)) as [|r1 sdf]; split;
      try (intros [? ?]; congruence);
      try (intros _; by_cases_on_raw_data w; fail).
    + intros _.
      destruct (chart_type w); destruct (show_raw_data w); step; eauto.
    + intros [H|H]; [contradiction | discriminate].
Qed.

Lemma charts_tab_chart_or_notice_witness :
  ("Goa" <> "Overall India" /\
   restrict (sample.choose "Goa" 0 0 true false)
     (filtered_df sample.table (sample.choose "Goa" 0 0 true false)) <> []) /\
  (exists heading figure,
     within st.tab2
       (page (snd (run sample.table (sample.choose "Goa" 0 0 true false))))
     = [st.subheader heading; st.plotly_chart figure] /\
     chart_of figure = Some Bar) /\
  within st.tab2
    (page (snd (run sample.table
                  (sample.choose "Overall India" 0 0 true false))))
  = [charts_need_state].
Proof.
  split; [|split].
  - apply (proj1 (charts_tab_chart_or_notice sample.table
                    (sample.choose "Goa" 0 0 true false))).
    reflexivity.
  - apply (proj2 (charts_tab_chart_or_notice sample.table
                    (sample.choose "Goa" 0 0 true false)));
      try reflexivity; try discriminate.
    split; discriminate.
  - apply (proj2 (charts_tab_chart_or_notice sample.table
                    (sample.choose "Overall India" 0 0 true false)));
      try reflexivity; try discriminate.
    now left.
Defined.

(** C10.  With a state selected of which no district passes the thresholds,
    while some district of the table does, the summary tab shows, below the
    heat map, the heading and the three cards of "Overall India", computed on
    the whole filtered frame; it holds no notice and no table of top
    districts. *)
Theorem summary_tab_falls_back_to_overall (df : DataFrame) (w : Widgets) :
  reset w = false -> plot w = true ->
  selected_state w <> "Overall India" ->
  filtered_df df w <> [] ->
  restrict w (filtered_df df w) = [] ->
  within st.tab3 (page (snd (run df w)))
  = [ st.subheader "Correlation Heatmap (Numerical Columns)";
      st.plotly_chart
        (st.annotated_heatmap (corr_df [])
           (map short_names numerical_cols) (map short_names numerical_cols));
      st.subheader "Summary for Overall India";
      st.metric "Total Population"
        (st.thousands (pandas.sum Population (filtered_df df w)));
      st.metric "Average Literacy Rate"
        (st.percent (pandas.mean Literacy_Rate (filtered_df df w)));
      st.metric "Total Districts" (st.count (List.length (filtered_df df w))) ]
  /\ existsb st.is_warning (within st.tab3 (page (snd (run df w)))) = false
  /\ existsb st.is_table (within st.tab3 (page (snd (run df w)))) = false.
Proof.
  intros Hr Hp Hs Hf He.
  apply String.eqb_neq in Hs.
  destruct df as [|d0 df]; [now rewrite filtered_df_nil in Hf|].
  unfold_script. step. rewrite Hr, Hp. step.
  destruct (filtered_df (d0 :: df) w) as [|r0 fdf]; [congruence|].
  step. rewrite He, Hs. step.
  destruct (show_raw_data w); step; repeat split.
Qed.

Lemma summary_tab_falls_back_to_overall_witness :
  restrict (sample.choose "Goa" 0 90 true false)
    (filtered_df sample.table (sample.choose "Goa" 0 90 true false)) = [] /\
  filter st.is_metric
    (within st.tab3
       (page (snd (run sample.table (sample.choose "Goa" 0 90 true false)))))
  = [ st.metric "Total Population"
        (st.thousands
           (pandas.sum Population
              [sample.district "Kerala" "Kannur" 2523003 (9510 # 100)]));
      st.metric "Average Literacy Rate"
        (st.percent
           (pandas.mean Literacy_Rate
              [sample.district "Kerala" "Kannur" 2523003 (9510 # 100)]));
      st.metric "Total Districts" (st.count 1) ] /\
  existsb st.is_table
    (within st.tab3
       (page (snd (run sample.table (sample.choose "Goa" 0 90 true false)))))
  = false.
Proof.
  split; [reflexivity|].
  destruct (summary_tab_falls_back_to_overall sample.table
              (sample.choose "Goa" 0 90 true false))
    as (Htab & _ & Htable);
    [reflexivity | reflexivity | discriminate | discriminate | reflexivity |].
  split; [|exact Htable].
  rewrite Htab. reflexivity.
Defined.

(** C7.  In a run that "Plot Graph" starts with a frame of the selection that
    is not empty, one download is offered.  Its data is the header followed
    by one record per row of [state_df], in order: as many rows as the frame
    has, and one.  Its file name is the selection followed by
    [_filtered_data.csv]. *)
Theorem download_serialises_state_df (df : DataFrame) (w : Widgets) :
  reset w = false -> plot w = true ->
  restrict w (filtered_df df w) <> [] ->
  exists data file_name,
    filter st.is_download (map snd (page (snd (run df w))))
    = [st.download_button "Download Filtered Data" data file_name "text/csv"] /\
    data = pandas.header :: map pandas.record (restrict w (filtered_df df w)) /\
    List.length data = S (List.length (restrict w (filtered_df df w))) /\
    file_name = selected_state w ++ "_filtered_data.csv" /\
    contains (selected_state w) file_name.
Proof.
  intros Hr Hp He.
  exists (pandas.to_csv (restrict w (filtered_df df w))),
         (selected_state w ++ "_filtered_data.csv").
  split; [|split; [reflexivity|]; split; [|split; [reflexivity|]]].
  - destruct df as [|d0 df];
      [now rewrite filtered_df_nil, restrict_nil in He|].
    unfold_script. step. rewrite Hr, Hp. step.
    destruct (filtered_df (d0 :: df) w) as [|r0 fdf];
      [now rewrite restrict_nil in He|].
    step.
    destruct (restrict w (r0 :: fdf)) as [|r1 sdf]; [congruence|].
    step.
    destruct (negb (String.eqb (selected_state w) "Overall India"));
      destruct (chart_type w); destruct (show_raw_data w); reflexivity.
  - unfold pandas.to_csv. simpl. now rewrite length_map.
  - exists "", "_filtered_data.csv". reflexivity.
Qed.

Lemma download_serialises_state_df_witness :
  List.length
    (restrict (sample.choose "Goa" 0 0 true false)
       (filtered_df sample.three_of_goa (sample.choose "Goa" 0 0 true false)))
  = 3%nat /\
  exists data file_name,
    filter st.is_download
      (map snd
         (page (snd (run sample.three_of_goa
                       (sample.choose "Goa" 0 0 true false)))))
    = [st.download_button "Download Filtered Data" data file_name "text/csv"] /\
    List.length data = 4%nat /\
    file_name = "Goa_filtered_data.csv" /\
    contains "Goa" file_name.
Proof.
  split; [reflexivity|].
  destruct (download_serialises_state_df sample.three_of_goa
              (sample.choose "Goa" 0 0 true false))
    as (data & file_name & Hd & _ & Hlen & Hname & Hin);
    [reflexivity | reflexivity | discriminate |].
  exists data, file_name. repeat split; assumption.
Defined.

(** ** The reset button *)

Lemma rerun_widgets_selection (w : Widgets) :
  selection (rerun_widgets w) = selection w.
Proof. reflexivity. Qed.

(** Every run of an interaction is given the selection the session held. *)
Lemma interaction_selection (f : File) (s : Session) :
  Forall (fun wr => selection (fst wr) = selection (widgets s))
    (interaction f s).
Proof.
  unfold interaction.
  destruct (fst (script_run f s)) as [[]|]; repeat constructor.
Qed.

(** A run that takes the table from the store writes the page of a run that
    reads it from the file. *)
Lemma cached_run (df : DataFrame) (w : Widgets) :
  app_py (csv df) w (fresh (Some df)) = run df w.
Proof. reflexivity. Qed.

(** C9, on a session where Goa and two thresholds are selected: pressing
    "Reset" ends the run by a rerun request, and the run that follows is
    given the same selection, not the default one; it computes its page anew
    from the table. *)
Theorem reset_reruns_with_the_same_selection :
  possible sample.table (sample.choose "Goa" 700000 88 false true) /\
  exists r1 r2,
    interaction (csv sample.table)
      (mkSession (sample.choose "Goa" 700000 88 false true) (Some sample.table))
    = [ (sample.choose "Goa" 700000 88 false true, r1);
        (sample.choose "Goa" 700000 88 false false, r2) ] /\
    fst r1 = inl st.RerunException /\
    r2 = run sample.table (sample.choose "Goa" 700000 88 false false) /\
    fst r2 = inr tt /\
    selection (sample.choose "Goa" 700000 88 false false)
    = ("Goa", Population, Num Literacy_Rate, 700000%Z, 88, Bar) /\
    selection (sample.choose "Goa" 700000 88 false false) <> default_selection.
Proof.
  split.
  - unfold possible. simpl. repeat split; auto 10; try discriminate.
    exists 5838465. split; [reflexivity|].
    split; [lia | vm_compute; discriminate].
  - do 2 eexists. split; [reflexivity|].
    split; [reflexivity|]. split; [reflexivity|]. split; [reflexivity|].
    split; [reflexivity | discriminate].
Qed.

(** * Further properties *)


(** ** Selecting rows *)

Lemma restrict_In (w : Widgets) (df : DataFrame) (r : Row) :
  In r (restrict w df) <-> In r df /\ selected w r.
Proof.
  unfold restrict, selected.
  destruct (String.eqb_spec (selected_state w) "Overall India") as [E|E].
  - tauto.
  - rewrite loc_In, state_eq_true. tauto.
Qed.

Lemma state_df_In (df : DataFrame) (w : Widgets) (r : Row) :
  In r (restrict w (filtered_df df w)) <->
  In r df /\ passes w r /\ selected w r.
Proof. rewrite restrict_In, filtered_df_In. unfold passes. simpl. tauto. Qed.

Lemma not_nil_In {A : Type} (l : list A) : l <> [] <-> exists x, In x l.
Proof.
  destruct l as [|x l]; split.
  - congruence.
  - intros [x []].
  - intros _. exists x. now left.
  - discriminate.
Qed.

(** X11.  The frame of the selection is not empty exactly when some row of
    the table passes both thresholds and is of the selection; otherwise the
    map tab shows its notice. *)
Theorem state_df_not_empty_iff (df : DataFrame) (w : Widgets) :
  restrict w (filtered_df df w) <> [] <->
  exists r, In r df /\ passes w r /\ selected w r.
Proof.
  split.
  - intros H. apply not_nil_In in H. destruct H as [r Hr].
    exists r. now apply state_df_In.
  - intros [r Hr]. apply not_nil_In. exists r. now apply state_df_In.
Qed.

Section Filters.

Variables (A : Type) (f g : A -> bool).

Lemma filter_filter (l : list A) :
  filter f (filter g l) = filter (fun x => g x && f x) l.
Proof.
  induction l as [|x l IH]; simpl; [reflexivity|].
  destruct (g x); simpl; [destruct (f x)|]; now rewrite IH.
Qed.

End Filters.

Lemma loc_comm (m1 m2 : Row -> bool) (df : DataFrame) :
  pandas.loc m1 (pandas.loc m2 df) = pandas.loc m2 (pandas.loc m1 df).
Proof.
  unfold pandas.loc. rewrite !filter_filter. apply filter_ext.
  intros r. apply andb_comm.
Qed.

(** X12.  The order of the selections does not matter: the literacy floor
    may be applied before the population floor, and the state may be
    selected before the thresholds are applied. *)
Theorem thresholds_commute (df : DataFrame) (w : Widgets) :
  filtered_df df w
  = pandas.loc (pandas.ge Population (inject_Z (min_population w)))
      (pandas.loc (pandas.ge Literacy_Rate (min_literacy w)) df) /\
  restrict w (filtered_df df w) = filtered_df (restrict w df) w.
Proof.
  split.
  - unfold filtered_df. apply loc_comm.
  - unfold restrict. destruct (String.eqb _ _); [reflexivity|].
    unfold filtered_df. rewrite (loc_comm (pandas.state_eq _)). f_equal.
    apply loc_comm.
Qed.

(** X13.  Raising the thresholds narrows the frame, and narrowing can be
    done in steps: filtering a filtered frame with higher thresholds gives
    what the higher thresholds give on the table. *)
Theorem filtered_df_narrowing (df : DataFrame) (w w' : Widgets) :
  (min_population w <= min_population w')%Z ->
  min_literacy w <= min_literacy w' ->
  filtered_df (filtered_df df w) w' = filtered_df df w' /\
  incl (filtered_df df w') (filtered_df df w).
Proof.
  intros Hp Hl.
  assert (Himp : forall r, passes w' r -> passes w r).
  { intros r [H1 H2]. split.
    - apply Qle_trans with (inject_Z (min_population w')); [|exact H1].
      rewrite <- Zle_Qle. exact Hp.
    - now apply Qle_trans with (min_literacy w'). }
  split.
  - unfold filtered_df at 1 2. unfold pandas.loc. rewrite !filter_filter.
    unfold filtered_df, pandas.loc. rewrite filter_filter.
    apply filter_ext. intros r.
    destruct (pandas.ge Population (inject_Z (min_population w')) r) eqn:E1;
      destruct (pandas.ge Literacy_Rate (min_literacy w') r) eqn:E2;
      rewrite ?andb_false_r; try reflexivity.
    apply ge_true in E1, E2.
    destruct (Himp r (conj E1 E2)) as [H1 H2].
    apply ge_true in H1, H2. now rewrite H1, H2.
  - intros r Hr. apply filtered_df_In in Hr. apply filtered_df_In.
    destruct Hr as (Hin & H1 & H2).
    destruct (Himp r (conj H1 H2)). tauto.
Qed.


(** ** The list of states *)

Lemma unique_In (l : list string) (s : string) :
  In s (pandas.unique l) <-> In s l.
Proof.
  induction l as [|x l IH]; simpl; [tauto|].
  rewrite filter_In, IH, negb_true_iff, String.eqb_neq.
  destruct (String.eqb_spec s x) as [->|N]; intuition congruence.
Qed.

Lemma unique_NoDup (l : list string) : NoDup (pandas.unique l).
Proof.
  induction l as [|x l IH]; simpl; constructor.
  - rewrite filter_In, negb_true_iff, String.eqb_neq. tauto.
  - now apply NoDup_filter.
Qed.

(** X14.  The select box of states starts with "Overall India" and then
    lists the states of the table, each one once: a state is offered exactly
    when a row of the table has it. *)
Theorem list_of_states_complete (df : DataFrame) :
  hd_error (list_of_states df) = Some "Overall India" /\
  (forall s, In s (list_of_states df) <->
             s = "Overall India" \/ exists r, In r df /\ f_State r = s) /\
  NoDup (tl (list_of_states df)).
Proof.
  split; [reflexivity|]. split; [|apply unique_NoDup].
  intros s. unfold list_of_states. simpl. rewrite unique_In, in_map_iff.
  split.
  - intros [H|(r & Hs & Hr)]; [now left | right; now exists r].
  - intros [H|(r & Hr & Hs)]; [now left | right; now exists r].
Qed.

Lemma count_one (U : list string) (x : string) :
  NoDup U -> In x U ->
  list_sum (map (fun s => if String.eqb x s then 1 else 0)%nat U) = 1%nat.
Proof.
  induction 1 as [|y U Hy HU IH]; intros Hin; [destruct Hin|].
  simpl. destruct (String.eqb_spec x y) as [->|N].
  - f_equal. clear IH Hin HU. induction U as [|z U IHU]; [reflexivity|].
    simpl. destruct (String.eqb_spec y z) as [->|_].
    + exfalso. apply Hy. now left.
    + apply IHU. intros H. apply Hy. now right.
  - destruct Hin as [->|Hin]; [congruence|]. now apply IH.
Qed.

Lemma list_sum_map_add {A : Type} (f g : A -> nat) (l : list A) :
  list_sum (map (fun x => f x + g x)%nat l)
  = (list_sum (map f l) + list_sum (map g l))%nat.
Proof. induction l as [|x l IH]; simpl; [reflexivity|]. rewrite IH. lia. Qed.

Lemma state_rows_add_up (U : list string) (df : DataFrame) :
  NoDup U -> (forall r, In r df -> In (f_State r) U) ->
  list_sum (map (fun s => List.length (pandas.loc (pandas.state_eq s) df)) U)
  = List.length df.
Proof.
  intros HU. induction df as [|r df IH]; intros Hin.
  - clear HU Hin. induction U as [|u U IHU]; [reflexivity | exact IHU].
  - rewrite (map_ext _ (fun s => (if String.eqb (f_State r) s then 1 else 0)
                      + List.length (pandas.loc (pandas.state_eq s) df))%nat).
    + rewrite list_sum_map_add, count_one, IH; auto.
      * intros r' Hr'. apply Hin. now right.
      * apply Hin. now left.
    + intros s. unfold pandas.loc, pandas.state_eq. simpl.
      now destruct (String.eqb (f_State r) s).
Qed.

(** X15.  When no state of the table is itself called "Overall India", the
    frames of the states of the select box split the filtered frame: their
    numbers of districts add up to the number under "Overall India". *)
Theorem districts_of_the_states_add_up (df : DataFrame) (w : Widgets) :
  ~ In "Overall India" (map f_State df) ->
  list_sum
    (map (fun s => List.length (restrict (select s w) (filtered_df df w)))
         (tl (list_of_states df)))
  = List.length (filtered_df df w).
Proof.
  intros Hno. simpl.
  rewrite <- (state_rows_add_up (pandas.unique (map f_State df))
                (filtered_df df w)).
  - apply f_equal, map_ext_in. intros s Hs. unfold restrict. simpl.
    destruct (String.eqb_spec s "Overall India") as [->|_]; [|reflexivity].
    apply (proj1 (unique_In _ _)) in Hs. contradiction.
  - apply unique_NoDup.
  - intros r Hr. apply unique_In, in_map. now apply filtered_df_In in Hr.
Qed.

(** ** The rows of the top five *)

Lemma sorted_app_before (c : NumCol) (l1 l2 : DataFrame) :
  StronglySorted (before c) (l1 ++ l2) ->
  forall a b, In a l1 -> In b l2 -> before c a b.
Proof.
  induction l1 as [|x l1 IH]; simpl; intros Hs a b Ha Hb; [destruct Ha|].
  inversion Hs as [|? ? Hrest Hall]; subst.
  destruct Ha as [<-|Ha].
  - rewrite Forall_forall in Hall. apply Hall, in_or_app. now right.
  - now apply IH.
Qed.

(** X16.  Every row of the table of top districts is a district of
    [state_df]; a district that is left out has a value no larger than any
    listed one; and a frame of at most five districts is listed whole. *)
Theorem top_districts_are_the_largest (primary : NumCol) (state_df : DataFrame) :
  (forall r, In r state_df ->
     In (f_District r, get primary r) (top_districts primary state_df) \/
     forall p, In p (top_districts primary state_df) ->
               get primary r <= snd p) /\
  (forall p, In p (top_districts primary state_df) ->
     exists r, In r state_df /\ p = (f_District r, get primary r)) /\
  ((List.length state_df <= 5)%nat ->
   Permutation (top_districts primary state_df)
     (pandas.district_and primary state_df)).
Proof.
  unfold top_districts, pandas.nlargest, pandas.district_and.
  pose proof (sort_values_desc_perm primary state_df) as Hperm.
  pose proof (sort_values_desc_sorted primary state_df) as Hsorted.
  set (ranked := pandas.sort_values_desc primary state_df) in *.
  split; [|split].
  - intros r Hr.
    apply (Permutation_in _ (Permutation_sym Hperm)) in Hr.
    rewrite <- (firstn_skipn 5 ranked) in Hr, Hsorted.
    apply in_app_or in Hr. destruct Hr as [Hr|Hr].
    + left. apply in_map_iff. now exists r.
    + right. intros p Hp. apply in_map_iff in Hp.
      destruct Hp as (a & <- & Ha). simpl.
      apply (sorted_app_before primary _ _ Hsorted a r Ha Hr).
  - intros p Hp. apply in_map_iff in Hp. destruct Hp as (r & <- & Hr).
    exists r. split; [|reflexivity].
    apply (Permutation_in _ Hperm).
    rewrite <- (firstn_skipn 5 ranked). apply in_or_app. now left.
  - intros Hlen. rewrite firstn_all2.
    + now apply Permutation_map.
    + now rewrite (Permutation_length Hperm).
Qed.

(** ** The literacy card *)

Lemma sum_at_least (c : NumCol) (m : Q) (df : DataFrame) :
  (forall r, In r df -> m <= get c r) ->
  m * inject_Z (Z.of_nat (List.length df)) <= pandas.sum c df.
Proof.
  induction df as [|r df IH]; intros Hall.
  - change (m * 0 <= 0). Lqa.lra.
  - change (pandas.sum c (r :: df)) with (get c r + pandas.sum c df).
    change (List.length (r :: df)) with (S (List.length df)).
    rewrite Nat2Z.inj_succ. unfold Z.succ. rewrite inject_Z_plus.
    assert (H1 := Hall r (or_introl eq_refl)).
    assert (H2 : m * inject_Z (Z.of_nat (List.length df)) <= pandas.sum c df).
    { apply IH. intros r' Hr'. apply Hall. now right. }
    change (inject_Z 1) with 1.
    set (n := inject_Z (Z.of_nat (List.length df))) in *. Lqa.lra.
Qed.

Lemma mean_at_least (c : NumCol) (m : Q) (df : DataFrame) :
  df <> [] -> (forall r, In r df -> m <= get c r) -> m <= pandas.mean c df.
Proof.
  intros Hne Hall. unfold pandas.mean.
  apply Qle_shift_div_l.
  - change 0 with (inject_Z 0). rewrite <- Zlt_Qlt.
    destruct df; [congruence | simpl; lia].
  - now apply sum_at_least.
Qed.


(** ** The population slider *)

Lemma Qmax_cases (x y : Q) :
  (Qmax x y = x \/ Qmax x y = y) /\ x <= Qmax x y /\ y <= Qmax x y.
Proof.
  unfold Qmax. destruct (Qle_bool x y) eqn:E.
  - apply Qle_bool_iff in E. repeat split; auto using Qle_refl.
  - repeat split; auto using Qle_refl.
    apply Qlt_le_weak, Qnot_le_lt. intros H. apply Qle_bool_iff in H.
    congruence.
Qed.

Lemma fold_Qmax (l : DataFrame) (m0 : Q) :
  let m := fold_left (fun m r => Qmax m (get Population r)) l m0 in
  (m = m0 \/ exists r, In r l /\ get Population r = m) /\
  m0 <= m /\
  (forall r, In r l -> get Population r <= m).
Proof.
  revert m0. induction l as [|x l IH]; intros m0; cbn [fold_left]; cbv zeta.
  - split; [now left|]. split; [apply Qle_refl | intros r []].
  - destruct (IH (Qmax m0 (get Population x))) as (Hin & Hge & Hall).
    cbv zeta in Hin, Hge, Hall.
    destruct (Qmax_cases m0 (get Population x)) as (Hc & H1 & H2).
    split; [|split].
    + destruct Hin as [Hin|(r & Hr & E)].
      * rewrite Hin. destruct Hc as [Hc|Hc]; [now left|].
        right. exists x. split; [now left | now rewrite Hc].
      * right. exists r. split; [now right | exact E].
    + eapply Qle_trans; eassumption.
    + intros r [<-|Hr]; [eapply Qle_trans; eassumption | now apply Hall].
Qed.

Lemma int_le (m : Q) : 0 <= m -> inject_Z (int m) <= m.
Proof.
  destruct m as [a b]. unfold Qle, int. simpl. intros Ha.
  rewrite Z.mul_1_r in *. rewrite Z.quot_div_nonneg by lia.
  rewrite Z.mul_comm. apply Z.mul_div_le. lia.
Qed.

(** X18.  The upper end of the population slider is the largest population of
    the table, without its fraction.  When that population is not negative,
    no position of the slider removes every row: the largest district
    passes. *)
Theorem population_floor_keeps_a_row (df : DataFrame) (w : Widgets) (m : Q) :
  population_max df = Some m -> 0 <= m ->
  (min_population w <= int m)%Z ->
  (forall r, In r df -> get Population r <= m) /\
  pandas.loc (pandas.ge Population (inject_Z (min_population w))) df <> [].
Proof.
  intros Hm Hpos Hw. destruct df as [|r0 df]; [discriminate|].
  assert (Hm' : fold_left (fun m r => Qmax m (get Population r)) df
                  (get Population r0) = m) by (now injection Hm).
  destruct (fold_Qmax df (get Population r0)) as (Hin & Hge & Hall).
  cbv zeta in Hin, Hge, Hall. rewrite Hm' in Hin, Hge, Hall.
  split.
  - intros r [<-|Hr]; [exact Hge | now apply Hall].
  - assert (Hr : exists r, In r (r0 :: df) /\ get Population r = m).
    { destruct Hin as [Hin|(r & Hr & E)].
      - exists r0. split; [now left | now symmetry].
      - exists r. split; [now right | exact E]. }
    destruct Hr as (r & Hr & E).
    apply not_nil_In. exists r. apply loc_In. split; [exact Hr|].
    apply ge_true. rewrite E.
    apply Qle_trans with (inject_Z (int m)); [|now apply int_le].
    rewrite <- Zle_Qle. exact Hw.
Qed.

Lemma population_floor_keeps_a_row_witness :
  pandas.loc (pandas.ge Population (inject_Z 5838465)) sample.table <> [].
Proof.
  apply (population_floor_keeps_a_row sample.table
           (sample.choose "Goa" 5838465 0 true false) 5838465).
  - reflexivity.
  - discriminate.
  - vm_compute. discriminate.
Defined.

(** ** The heat map of a small frame *)

(** X19.  On a frame of no row or of one row every entry of the correlation
    matrix is NaN, off the diagonal too. *)
Theorem corr_df_undefined_below_two_rows (state_df : DataFrame) :
  (List.length state_df <= 1)%nat ->
  forall i j, entry (corr_df state_df) i j = None.
Proof.
  intros Hlen i j. unfold corr_df.
  destruct (nth_error numerical_cols i) as [a|] eqn:Hi;
    [destruct (nth_error numerical_cols j) as [b|] eqn:Hj|];
    try (apply entry_corr_outside; auto; fail).
  rewrite (entry_corr _ _ i j a b Hi Hj). unfold pandas.pearson.
  rewrite values_length.
  destruct state_df as [|r [|r' df]]; [reflexivity | | simpl in Hlen; lia].
  simpl Nat.ltb. cbv iota zeta.
  assert (H0 : pandas.ssqdm (pandas.values a [r]) = 0%R).
  { apply ssqdm_zero_iff. intros (r1 & r2 & H1 & H2 & Hne). apply Hne.
    destruct H1 as [<-|[]]; destruct H2 as [<-|[]]; reflexivity. }
  rewrite H0, Rmult_0_l, sqrt_0.
  destruct (Req_dec_T 0 0) as [_|N]; [reflexivity | now elim N].
Qed.

Lemma corr_df_undefined_below_two_rows_witness :
  entry (corr_df sample.chandigarh) 2 9 = None.
Proof.
  apply (corr_df_undefined_below_two_rows sample.chandigarh); simpl; lia.
Defined.

(** ** The labels of the heat map *)

(** X21.  No two numeric columns share a label on the axes of the heat
    map. *)
Theorem short_names_injective (a b : NumCol) :
  short_names a = short_names b -> a = b.
Proof.
  destruct a, b; simpl; intros H; try reflexivity; discriminate H.
Qed.

Lemma short_names_injective_witness : Population = Population.
Proof. apply (short_names_injective Population Population). reflexivity. Defined.

(** ** Loading the table *)

(** X1.  When [india.csv] is missing or holds no data, the run writes one
    error on the page and stops there, whatever the widgets hold: nothing
    else is written and the store stays empty. *)
Theorem load_failure_stops (w : Widgets) :
  app_py missing w (fresh None)
  = (inl st.StopException,
     mkRun
       [(st.main, st.error
           "Error: 'india.csv' not found. Please ensure the file exists in the correct directory.")]
       None None) /\
  app_py no_data w (fresh None)
  = (inl st.StopException,
     mkRun
       [(st.main, st.error
           "Error: 'india.csv' is empty. Please provide a valid CSV file.")]
       None None).
Proof. split; reflexivity. Qed.

Ltac by_cases_of_the_run df w :=
  destruct df as [|?d0 ?df]; unfold_script; step;
  [ try reflexivity
  | destruct (reset w); step; [try reflexivity|];
    destruct (plot w); step;
    [ destruct (filtered_df (d0 :: df) w) as [|?r0 ?fdf] eqn:?Ef; step;
      [ try reflexivity
      | destruct (String.eqb_spec (selected_state w) "Overall India")
          as [?Es|?Es]; step;
        destruct (restrict w (r0 :: fdf)) as [|?r1 ?sdf] eqn:?Er; step;
        try destruct (chart_type w); step;
        destruct (show_raw_data w) eqn:?Eraw; step; try reflexivity ]
    | destruct (show_raw_data w) eqn:?Eraw; step; try reflexivity ] ].

(** X2.  A run that reads the table leaves it in the store, however the run
    ends; and a run that finds the table in the store does not look at the
    file: it goes as the run that read the table. *)
Theorem load_data_reads_the_file_once (f : File) (df : DataFrame)
        (w w' : Widgets) :
  cache (snd (app_py (csv df) w (fresh None))) = Some df /\
  app_py f w' (fresh (Some df)) = app_py (csv df) w' (fresh None).
Proof.
  split; [|reflexivity].
  change (cache (snd (run df w)) = Some df).
  by_cases_of_the_run df w.
Qed.

(** X3.  On a table without rows the run ends at line 53 with a
    [ValueError], the maximum of the empty [Population] column being NaN: the
    side bar is begun and nothing is written on the page, whatever the
    widgets hold. *)
Theorem empty_table_raises_ValueError (w : Widgets) :
  run [] w
  = (inl (st.ValueError "cannot convert float NaN to integer"),
     mkRun
       [ (st.sidebar, st.title "India's Data Visualization");
         (st.sidebar, st.markdown
            "**Help**: Select a numerical column (e.g., Population) for size and any column for color.");
         (st.sidebar, st.subheader "Filters") ]
       None (Some [])).
Proof. reflexivity. Qed.



(** X5.  Until "Plot Graph" is pressed nothing is drawn: the three tabs stay
    empty, and the page holds no figure, no notice and no download. *)
Theorem nothing_drawn_before_plot (df : DataFrame) (w : Widgets) :
  plot w = false ->
  within st.tab1 (page (snd (run df w))) = [] /\
  within st.tab2 (page (snd (run df w))) = [] /\
  within st.tab3 (page (snd (run df w))) = [] /\
  figures (elements (run df w)) = [] /\
  existsb st.is_warning (elements (run df w)) = false /\
  existsb st.is_download (elements (run df w)) = false.
Proof.
  intros Hp. unfold elements. destruct df as [|d0 df]; unfold_script; step.
  - repeat split.
  - destruct (reset w); step; [repeat split|].
    rewrite Hp. destruct (show_raw_data w); step; repeat split.
Qed.

Lemma nothing_drawn_before_plot_witness :
  figures (elements (run sample.table (sample.choose "Goa" 0 0 false false)))
  = [].
Proof.
  apply (nothing_drawn_before_plot sample.table
           (sample.choose "Goa" 0 0 false false)).
  reflexivity.
Defined.

(** ** What a plot draws *)

(** X6.  The map tab of a run that fills the tabs holds one element: the map
    of [state_df], sized by [primary] and coloured by [secondary], titled
    with the selection, at zoom 3 for "Overall India" and 6 for a state; or,
    when no district of the state passes, the notice that names the state.
    Under "Overall India" it is always the map. *)
Theorem map_tab_map_or_notice (df : DataFrame) (w : Widgets) :
  reset w = false -> plot w = true -> filtered_df df w <> [] ->
  within st.tab1 (page (snd (run df w)))
  = [ if pandas.empty (restrict w (filtered_df df w))
      then st.warning ("No data available for " ++ selected_state w
                       ++ " with the current filters.")
      else st.plotly_chart
             (st.scatter_mapbox (restrict w (filtered_df df w))
                (secondary w) (primary w)
                (if String.eqb (selected_state w) "Overall India"
                 then 3%Z else 6%Z)
                (selected_state w)) ] /\
  (selected_state w = "Overall India" ->
   pandas.empty (restrict w (filtered_df df w)) = false).
Proof.
  intros Hr Hp Hf.
  destruct df as [|d0 df]; [now rewrite filtered_df_nil in Hf|].
  split.
  - unfold_script. step. rewrite Hr, Hp. step.
    destruct (filtered_df (d0 :: df) w) as [|r0 fdf]; [congruence|].
    step. unfold zoom, title.
    destruct (String.eqb_spec (selected_state w) "Overall India") as [Es|Es];
      step; destruct (restrict w (r0 :: fdf)); step;
      try destruct (chart_type w); step;
      destruct (show_raw_data w); step; try reflexivity;
      now rewrite Es.
  - intros Es. unfold restrict. rewrite Es. simpl.
    now destruct (filtered_df (d0 :: df) w).
Qed.

Lemma map_tab_map_or_notice_witness :
  within st.tab1
    (page (snd (run sample.table (sample.choose "Goa" 0 90 true false))))
  = [ st.warning "No data available for Goa with the current filters." ].
Proof.
  apply (proj1 (map_tab_map_or_notice sample.table
                  (sample.choose "Goa" 0 90 true false)
                  eq_refl eq_refl ltac:(discriminate))).
Defined.

(** X7.  A download is offered exactly in the runs that "Plot Graph" starts
    with a frame of the selection that is not empty. *)
Theorem download_offered_iff (df : DataFrame) (w : Widgets) :
  existsb st.is_download (elements (run df w)) = true <->
  reset w = false /\ plot w = true /\ restrict w (filtered_df df w) <> [].
Proof.
  unfold elements. destruct df as [|d0 df]; unfold_script; step.
  - split; [discriminate|].
    intros (_ & _ & H). now rewrite restrict_nil in H.
  - destruct (reset w); step; [split; [discriminate | now intros (H & _)]|].
    destruct (plot w); step.
    + destruct (filtered_df (d0 :: df) w) as [|r0 fdf]; step.
      * split; [discriminate|].
        intros (_ & _ & H). now rewrite restrict_nil in H.
      * destruct (String.eqb_spec (selected_state w) "Overall India");
          step; destruct (restrict w (r0 :: fdf)); step;
          try destruct (chart_type w); step;
          destruct (show_raw_data w); step;
          (split; [try discriminate; intros _; repeat split; discriminate
                  | try reflexivity; intros (_ & _ & H); congruence]).
    + destruct (show_raw_data w); step;
        (split; [discriminate | intros (_ & H & _); discriminate H]).
Qed.

Lemma download_offered_iff_witness :
  existsb st.is_download
    (elements (run sample.table (sample.choose "Goa" 0 0 true false))) = true.
Proof.
  apply (proj2 (download_offered_iff sample.table
                  (sample.choose "Goa" 0 0 true false))).
  repeat split; discriminate.
Defined.

(** X8.  When the frame of the selection is not empty, the summary tab holds
    the heat map of that frame and the three cards computed on it: the sum
    of the populations, the mean literacy rate, the number of districts.
    With a state selected the table of its top districts follows; under
    "Overall India" nothing follows. *)
Theorem summary_tab_of_the_selection (df : DataFrame) (w : Widgets) :
  reset w = false -> plot w = true ->
  restrict w (filtered_df df w) <> [] ->
  within st.tab3 (page (snd (run df w)))
  = ([ st.subheader "Correlation Heatmap (Numerical Columns)";
       st.plotly_chart
         (st.annotated_heatmap (corr_df (restrict w (filtered_df df w)))
            (map short_names numerical_cols) (map short_names numerical_cols));
       st.subheader
         (if String.eqb (selected_state w) "Overall India"
          then "Summary for Overall India"
          else "Summary for " ++ selected_state w);
       st.metric "Total Population"
         (st.thousands
            (pandas.sum Population (restrict w (filtered_df df w))));
       st.metric "Average Literacy Rate"
         (st.percent
            (pandas.mean Literacy_Rate (restrict w (filtered_df df w))));
       st.metric "Total Districts"
         (st.count (List.length (restrict w (filtered_df df w)))) ]
     ++ (if String.eqb (selected_state w) "Overall India" then []
         else [ st.subheader ("Top 5 Districts by " ++ num_name (primary w));
                st.table
                  (top_districts (primary w)
                     (restrict w (filtered_df df w))) ]))%list.
Proof.
  intros Hr Hp He.
  destruct df as [|d0 df];
    [now rewrite filtered_df_nil, restrict_nil in He|].
  unfold_script. step. rewrite Hr, Hp. step.
  destruct (filtered_df (d0 :: df) w) as [|r0 fdf] eqn:Ef;
    [now rewrite restrict_nil in He|].
  step.
  destruct (String.eqb_spec (selected_state w) "Overall India") as [Es|Es].
  - assert (Hsame : restrict w (r0 :: fdf) = r0 :: fdf).
    { unfold restrict. now rewrite Es. }
    rewrite Hsame. step.
    destruct (show_raw_data w); reflexivity.
  - step. destruct (restrict w (r0 :: fdf)) as [|r1 sdf]; [congruence|].
    step. destruct (chart_type w); step; destruct (show_raw_data w);
      reflexivity.
Qed.

Lemma summary_tab_of_the_selection_witness :
  existsb st.is_table
    (within st.tab3
       (page (snd (run sample.table (sample.choose "Goa" 0 0 true false)))))
  = true.
Proof.
  rewrite (summary_tab_of_the_selection sample.table
             (sample.choose "Goa" 0 0 true false)
             eq_refl eq_refl ltac:(discriminate)).
  reflexivity.
Defined.

(** The maps and charts of a run take [state_df] as their data. *)
Lemma figures_from_state_df (df : DataFrame) (w : Widgets) :
  Forall (fun f => forall d, figure_data f = Some d ->
                             d = restrict w (filtered_df df w))
         (figures (elements (run df w))).
Proof.
  unfold elements. destruct df as [|d0 df]; unfold_script; step;
    [constructor|].
  destruct (reset w); step; [constructor|].
  destruct (plot w); step; [|destruct (show_raw_data w); constructor].
  destruct (filtered_df (d0 :: df) w) as [|r0 fdf]; step; [constructor|].
  destruct (String.eqb (selected_state w) "Overall India");
    step; destruct (restrict w (r0 :: fdf)); step;
    try destruct (chart_type w); step;
    destruct (show_raw_data w); step;
    repeat (apply Forall_cons;
            [simpl; intros frame Hdata;
             solve [discriminate Hdata | now injection Hdata]|]);
    apply Forall_nil.
Qed.

(** X10.  Every map and chart of a run is drawn from [state_df]: each row it
    shows is a row of the table that passes both thresholds and is of the
    selection. *)
Theorem only_rows_of_the_selection_are_drawn
        (df : DataFrame) (w : Widgets) (f : st.Figure) (d : DataFrame)
        (r : Row) :
  In f (figures (elements (run df w))) ->
  figure_data f = Some d ->
  In r d ->
  In r df /\ passes w r /\ selected w r.
Proof.
  intros Hf Hd Hr.
  pose proof (figures_from_state_df df w) as Hall.
  rewrite Forall_forall in Hall. rewrite (Hall f Hf d Hd) in Hr.
  now apply state_df_In.
Qed.

Lemma only_rows_of_the_selection_are_drawn_witness :
  In (sample.district "Goa" "South Goa" 640537 (8760 # 100)) sample.table /\
  passes (sample.choose "Goa" 0 0 true false)
    (sample.district "Goa" "South Goa" 640537 (8760 # 100)) /\
  selected (sample.choose "Goa" 0 0 true false)
    (sample.district "Goa" "South Goa" 640537 (8760 # 100)).
Proof.
  apply (only_rows_of_the_selection_are_drawn sample.table
           (sample.choose "Goa" 0 0 true false)
           (st.bar sample.goa District Population "Population in Goa"
              (Num Literacy_Rate))
           sample.goa).
  - lazy -[corr_df]. right. left. reflexivity.
  - reflexivity.
  - right. now left.
Defined.

(** X9.  "Show raw data" writes the frame of the selection, the one the map
    and the download take, in every run that reaches the last lines: not
    when "Reset" is pressed, and not when "Plot Graph" is pressed while no
    row passes the thresholds. *)
Theorem raw_data_written (df : DataFrame) (w : Widgets) :
  df <> [] ->
  written (elements (run df w))
  = if negb (reset w) && show_raw_data w
       && negb (plot w && pandas.empty (filtered_df df w))
    then [restrict w (filtered_df df w)] else [].
Proof.
  intros Hdf. destruct df as [|d0 df]; [congruence|]. clear Hdf.
  unfold elements. unfold_script. step.
  destruct (reset w); step; [reflexivity|].
  destruct (plot w); step.
  - destruct (filtered_df (d0 :: df) w) as [|r0 fdf] eqn:Ef; step.
    + now destruct (show_raw_data w).
    + destruct (String.eqb (selected_state w) "Overall India");
        step; destruct (restrict w (r0 :: fdf)); step;
        try destruct (chart_type w); step;
        destruct (show_raw_data w); reflexivity.
  - destruct (show_raw_data w); reflexivity.
Qed.

Lemma raw_data_written_witness :
  written
    (elements
       (run sample.table
          (mkWidgets "Goa" Population (Num Literacy_Rate) 0 0 Bar
             false false true)))
  = [sample.goa].
Proof.
  apply (raw_data_written sample.table
           (mkWidgets "Goa" Population (Num Literacy_Rate) 0 0 Bar
              false false true)).
  discriminate.
Defined.

(** ** After a rerun *)

Lemma idle_run (f : File) (c : option DataFrame) (w : Widgets) :
  reset w = false -> plot w = false ->
  fst (app_py f w (fresh c)) <> inl st.RerunException /\
  figures (elements (app_py f w (fresh c))) = [] /\
  existsb st.is_download (elements (app_py f w (fresh c))) = false.
Proof.
  intros Hr Hp. unfold elements.
  destruct c as [df|]; [|destruct f as [| |df]];
    try (unfold_script; step; repeat split; discriminate);
    (destruct df as [|d0 df]; unfold_script; step;
     [repeat split; discriminate|];
     rewrite Hr, Hp; step; destruct (show_raw_data w); step;
     repeat split; discriminate).
Qed.

(** X20.  The run that follows a press of "Reset" has both buttons
    released: it does not ask for another rerun, and it draws no figure and
    offers no download, whatever was plotted before. *)
Theorem the_rerun_is_idle (f : File) (s : Session) (w1 w2 : Widgets)
        (r1 r2 : (st.Exception + unit) * Run) :
  interaction f s = [(w1, r1); (w2, r2)] ->
  fst r1 = inl st.RerunException /\
  selection w2 = selection (widgets s) /\
  fst r2 <> inl st.RerunException /\
  figures (elements r2) = [] /\
  existsb st.is_download (elements r2) = false.
Proof.
  unfold interaction. intros H.
  destruct (fst (script_run f s)) as [[]|] eqn:E; try discriminate H.
  injection H as <- <- <- <-.
  split; [exact E|]. split; [reflexivity|].
  apply idle_run; reflexivity.
Qed.

Lemma the_rerun_is_idle_witness :
  figures
    (elements
       (run sample.table (sample.choose "Goa" 700000 88 false false))) = [].
Proof.
  apply (the_rerun_is_idle (csv sample.table)
           (mkSession (sample.choose "Goa" 700000 88 true true)
              (Some sample.table))
           (sample.choose "Goa" 700000 88 true true)
           (sample.choose "Goa" 700000 88 false false)
           (script_run (csv sample.table)
              (mkSession (sample.choose "Goa" 700000 88 true true)
                 (Some sample.table)))
           (run sample.table (sample.choose "Goa" 700000 88 false false))).
  reflexivity.
Defined.

(** ** The further properties on the sample table *)

Lemma state_df_not_empty_iff_witness :
  restrict (sample.choose "Goa" 0 88 true false)
    (filtered_df sample.table (sample.choose "Goa" 0 88 true false)) <> [].
Proof.
  apply (proj2 (state_df_not_empty_iff sample.table
                  (sample.choose "Goa" 0 88 true false))).
  exists (sample.district "Goa" "North Goa" 818008 (8957 # 100)).
  split; [right; right; now left|].
  split; [split; discriminate | now right].
Defined.

Lemma filtered_df_narrowing_witness :
  filtered_df
    (filtered_df sample.table (sample.choose "Goa" 0 0 true false))
    (sample.choose "Goa" 700000 88 true false)
  = filtered_df sample.table (sample.choose "Goa" 700000 88 true false) /\
  incl (filtered_df sample.table (sample.choose "Goa" 700000 88 true false))
       (filtered_df sample.table (sample.choose "Goa" 0 0 true false)).
Proof.
  apply (filtered_df_narrowing sample.table
           (sample.choose "Goa" 0 0 true false)
           (sample.choose "Goa" 700000 88 true false)).
  - simpl. lia.
  - simpl. discriminate.
Defined.

Lemma districts_of_the_states_add_up_witness :
  list_sum
    (map (fun s =>
            List.length
              (restrict (select s (sample.choose "Goa" 0 88 true false))
                 (filtered_df sample.table
                    (sample.choose "Goa" 0 88 true false))))
         ["Kerala"; "Bihar"; "Goa"])
  = 2%nat.
Proof.
  apply (districts_of_the_states_add_up sample.table
           (sample.choose "Goa" 0 88 true false)).
  simpl. intros [H|[H|[H|[H|[]]]]]; discriminate H.
Defined.

Lemma top_districts_are_the_largest_witness :
  (In ("A", 10) (top_districts Population sample.five) \/
   forall p, In p (top_districts Population sample.five) -> 10 <= snd p) /\
  Permutation (top_districts Population sample.five)
    (pandas.district_and Population sample.five).
Proof.
  split.
  - apply (proj1 (top_districts_are_the_largest Population sample.five)
             (sample.district "X" "A" 10 50)).
    now left.
  - apply (proj2 (proj2 (top_districts_are_the_largest Population
                           sample.five))).
    simpl. lia.
Defined.

